(** * A shallow embedding of [src/vae/vae.py]

    The variational autoencoder of the repository, over the real numbers:
    tensors are nested lists of reals, the random draws of [rsample] are an
    explicit noise argument, Python exceptions are the [Raise] case of a
    result type, and the logger of the training loop is a list of recorded
    calls that the step functions extend.

    Real arithmetic is exact: rounding, overflow and the IEEE special values
    of the tensors' floating-point entries are outside this embedding. *)

From Stdlib Require Import Reals Lra Lia ZArith Bool String List.
Import ListNotations.
Open Scope string_scope.
Open Scope R_scope.

Set Implicit Arguments.

(* ================================================================== *)
(** ** Python results: a value or a raised exception *)

Inductive exn : Type :=
| KeyError (key : string)
| ValueError (msg : string).

Inductive result (A : Type) : Type :=
| Ok (a : A)
| Raise (e : exn).

Arguments Ok {A} a.
Arguments Raise {A} e.

Definition bind {A B : Type} (r : result A) (k : A -> result B) : result B :=
  match r with
  | Ok a => k a
  | Raise e => Raise e
  end.

Notation "x <- r ;; k" := (bind r (fun x => k))
  (at level 61, r at next level, right associativity).
Notation "' p <- r ;; k" := (bind r (fun x => let p := x in k))
  (at level 61, p pattern, r at next level, right associativity).

(** A Python [dict] with string keys, in insertion order; [d[k]] raises
    [KeyError] on a missing key. *)
Definition dict (V : Type) : Type := list (string * V).

Fixpoint dict_lookup {V : Type} (d : dict V) (k : string) : option V :=
  match d with
  | [] => None
  | (k', v) :: d' => if String.eqb k' k then Some v else dict_lookup d' k
  end.

Definition dict_get {V : Type} (d : dict V) (k : string) : result V :=
  match dict_lookup d k with
  | Some v => Ok v
  | None => Raise (KeyError k)
  end.

Definition dict_keys {V : Type} (d : dict V) : list string := map fst d.

(* ================================================================== *)
(** ** Tensors

    A tensor of rank [k] is a [k]-fold nested list; the outermost list is
    axis 0.  Element-wise operations of two tensors run over the positions
    both have; the claims are stated for operands of one shape, which is
    the only case in which the source does not broadcast or raise. *)

Definition Tensor1 : Type := list R.
Definition Tensor2 : Type := list Tensor1.
Definition Tensor3 : Type := list Tensor2.
Definition Tensor4 : Type := list Tensor3.

Fixpoint map2 {A B C : Type} (f : A -> B -> C) (l1 : list A) (l2 : list B)
  : list C :=
  match l1, l2 with
  | a :: l1', b :: l2' => f a b :: map2 f l1' l2'
  | _, _ => []
  end.

(** [imap f [a0; a1; ...] = [f 0 a0; f 1 a1; ...]]. *)
Fixpoint imap_from {A B : Type} (f : nat -> A -> B) (i : nat) (l : list A)
  : list B :=
  match l with
  | [] => []
  | a :: l' => f i a :: imap_from f (S i) l'
  end.

Definition imap {A B : Type} (f : nat -> A -> B) (l : list A) : list B :=
  imap_from f 0 l.

Definition t2_map (f : R -> R) (t : Tensor2) : Tensor2 := map (map f) t.
Definition t4_map (f : R -> R) (t : Tensor4) : Tensor4 :=
  map (map (map (map f))) t.

Definition t1_map2 (f : R -> R -> R) (a b : Tensor1) : Tensor1 := map2 f a b.
Definition t2_map2 (f : R -> R -> R) (a b : Tensor2) : Tensor2 :=
  map2 (map2 f) a b.
Definition t3_map2 (f : R -> R -> R) (a b : Tensor3) : Tensor3 :=
  map2 (map2 (map2 f)) a b.
Definition t4_map2 (f : R -> R -> R) (a b : Tensor4) : Tensor4 :=
  map2 (map2 (map2 (map2 f))) a b.

(** [t.sum()] of a rank-1 tensor. *)
Definition t_sum (t : Tensor1) : R := fold_right Rplus 0 t.

(** [t.mean()] of a rank-1 tensor.  On the empty tensor torch yields NaN,
    which no real number stands for; the claims about means are stated for
    non-empty axes wherever the value matters. *)
Definition t_mean (t : Tensor1) : R := t_sum t / INR (length t).

(** [t.sum(dim=-1)] of a rank-2 tensor: one sum per row. *)
Definition sum_last (t : Tensor2) : Tensor1 := map t_sum t.

(** [t.sum(dim=(1, 2, 3))] of a rank-4 tensor: one sum per batch element. *)
Definition sum_dim123 (t : Tensor4) : Tensor1 :=
  map (fun img => t_sum (map (fun chan => t_sum (map t_sum chan)) img)) t.

(** [t.mean(dim=0)] of a rank-3 tensor: the entry-wise mean of its slices.
    An empty axis 0 gives NaN entries in torch, which no real number stands
    for: this function is the mean for one slice or more, and
    [WithNaN.mean_dim0] below covers the empty axis. *)
Definition mean_dim0 (t : Tensor3) : Tensor2 :=
  match t with
  | [] => []
  | t0 :: ts =>
      t2_map (fun v => v / INR (length t)) (fold_left (t2_map2 Rplus) ts t0)
  end.

Definition zeros_like (t : Tensor2) : Tensor2 := t2_map (fun _ => 0) t.
Definition ones_like (t : Tensor2) : Tensor2 := t2_map (fun _ => 1) t.

(** [torch.logsumexp(t, dim=0)] of a rank-1 tensor. *)
Definition logsumexp (t : Tensor1) : R := ln (t_sum (map exp t)).

(** Shapes. *)
Definition has_shape4 (n c h w : nat) (t : Tensor4) : Prop :=
  length t = n /\
  Forall (fun img => length img = c /\
    Forall (fun chan => length chan = h /\
      Forall (fun row => length row = w) chan) img) t.

(** Two rank-2 tensors with the same number of rows and the same row
    lengths. *)
Definition same_shape2 (a b : Tensor2) : Prop :=
  map (@length R) a = map (@length R) b.

(* ================================================================== *)
(** ** Likelihood functions *)

(** [x.clamp(min=lo, max=hi)] on one entry. *)
Definition clamp (lo hi x : R) : R := Rmin (Rmax x lo) hi.

Definition sigmoid (x : R) : R := 1 / (1 + exp (- x)).

Definition floor (x : R) : R := IZR (Zfloor x).

Definition default_binsize : R := 1 / 256.

Definition discretized_logistic
  (mean : Tensor4) (logscale : R) (sample : Tensor4) (binsize : R) : Tensor1 :=
  let mean := t4_map (clamp (-0.5 + 1 / 512) (0.5 - 1 / 512)) mean in
  let scale := exp logscale in
  let sample :=
    t4_map2 (fun x m => (floor (x / binsize) * binsize - m) / scale)
            sample mean in
  let log_pxz :=
    t4_map (fun s => ln (sigmoid (s + binsize / scale) - sigmoid s + 1e-7))
           sample in
  sum_dim123 log_pxz.

(* ================================================================== *)
(** ** The distribution registry

    [torch.distributions.Normal] and [torch.distributions.Laplace], with a
    location and a scale tensor of rank 2.  The log-densities and the
    reparameterized samplers are torch's formulas; the standard draw that
    [rsample] makes for the entry at row [n], column [j] is the value
    [eps n j] of an explicit noise argument (a standard normal draw for
    [Normal], a uniform draw on (-1, 1) for [Laplace]). *)

Inductive Family : Type := Laplace | Normal.

Record Distribution : Type := mkDistribution {
  family : Family;
  loc : Tensor2;
  scale : Tensor2
}.

Definition distributions : dict (Tensor2 -> Tensor2 -> Distribution) :=
  [("laplace", mkDistribution Laplace); ("normal", mkDistribution Normal)].

(** [u.sign()] on one entry. *)
Definition sgn (u : R) : R :=
  if Rlt_dec 0 u then 1 else if Rlt_dec u 0 then -1 else 0.

Definition log_prob_entry (f : Family) (l s x : R) : R :=
  match f with
  | Normal =>
      let var := s ^ 2 in
      - ((x - l) ^ 2) / (2 * var) - ln s - ln (sqrt (2 * PI))
  | Laplace => - ln (2 * s) - Rabs (x - l) / s
  end.

Definition rsample_entry (f : Family) (l s e : R) : R :=
  match f with
  | Normal => l + e * s
  | Laplace => l - s * sgn e * ln (1 + - Rabs e)
  end.

(** [d.log_prob(value)] for a value of the distribution's own shape. *)
Definition log_prob (d : Distribution) (value : Tensor2) : Tensor2 :=
  map2 (fun ls xs =>
          map2 (fun l_s x => log_prob_entry (family d) (fst l_s) (snd l_s) x)
               (combine (fst ls) (snd ls)) xs)
       (combine (loc d) (scale d)) value.

(** [d.log_prob(value)] for a value with a leading sample axis: the
    parameters broadcast over that axis. *)
Definition log_prob3 (d : Distribution) (value : Tensor3) : Tensor3 :=
  map (log_prob d) value.

(** [d.rsample()]: one draw, of the distribution's shape. *)
Definition rsample (d : Distribution) (eps : nat -> nat -> R) : Tensor2 :=
  imap (fun n ls =>
          imap (fun j l_s =>
                  rsample_entry (family d) (fst l_s) (snd l_s) (eps n j))
               (combine (fst ls) (snd ls)))
       (combine (loc d) (scale d)).

(** [d.rsample([num_samples])]: [num_samples] draws along a new axis 0. *)
Definition rsample_n (d : Distribution) (num_samples : nat)
  (eps : nat -> nat -> nat -> R) : Tensor3 :=
  map (fun s => rsample d (eps s)) (seq 0 num_samples).

Definition gaussian_likelihood (mean : Tensor4) (logscale : R)
  (sample : Tensor4) : Tensor1 :=
  let scale := exp logscale in
  let log_pxz := t4_map2 (fun m x => log_prob_entry Normal m scale x)
                         mean sample in
  sum_dim123 log_pxz.

(** The draws of [p.rsample([num_samples])] are the noise argument [eps]. *)
Definition kl_divergence_mc (p q : Distribution) (num_samples : nat)
  (eps : nat -> nat -> nat -> R) : Tensor1 :=
  let x := rsample_n p num_samples eps in
  let log_px := log_prob3 p x in
  let log_qx := log_prob3 q x in
  (* mean over num_samples, sum over z_dim *)
  sum_last (mean_dim0 (t3_map2 Rminus log_px log_qx)).

(** The same function with the NaN of an empty sample axis made explicit.
    An entry is [Some v] for the real [v] and [None] for NaN.  With no
    sample the tensor under the mean has shape (0, N, D), with (N, D) the
    shape of [p]; torch's [mean(dim=0)] divides a sum of no terms by 0 and
    returns NaN in each of the N x D entries, and a sum over entries one of
    which is NaN is NaN.  With at least one sample no NaN arises and the
    entries are those of [mean_dim0] and [sum_last]. *)
Module WithNaN.

Definition mean_dim0 (batch_shape : Tensor2) (t : Tensor3)
  : list (list (option R)) :=
  match t with
  | [] => map (map (fun _ => None)) batch_shape
  | _ :: _ => map (map Some) (mean_dim0 t)
  end.

Definition add (a b : option R) : option R :=
  match a, b with
  | Some x, Some y => Some (x + y)
  | _, _ => None
  end.

Definition sum_last (t : list (list (option R))) : list (option R) :=
  map (fold_right add (Some 0)) t.

Definition kl_divergence_mc (p q : Distribution) (num_samples : nat)
  (eps : nat -> nat -> nat -> R) : list (option R) :=
  let x := rsample_n p num_samples eps in
  let log_px := log_prob3 p x in
  let log_qx := log_prob3 q x in
  sum_last (mean_dim0 (loc p) (t3_map2 Rminus log_px log_qx)).

End WithNaN.

(* ================================================================== *)
(** ** Projection heads *)

(** The layers a [Projection] is built from.  A [Linear] layer holds its
    weight, of shape (out_features, in_features), and its bias if it has
    one. *)
Inductive Layer : Type :=
| Linear (weight : Tensor2) (bias : option Tensor1)
| BatchNorm1d (num_features : nat)
| ReLU.

Inductive Model : Type :=
| Single (l : Layer)
| Sequential (ls : list Layer).

(** The initial entries of a [Linear] layer's parameters, which torch draws
    at random: entry [(o, i)] of the weight and entry [o] of the bias. *)
Record LinearInit : Type := mkLinearInit {
  weight_init : nat -> nat -> R;
  bias_init : nat -> R
}.

Definition tabulate {A : Type} (n : nat) (f : nat -> A) : list A :=
  map f (seq 0 n).

(** [nn.Linear(in_features, out_features, bias=...)]. *)
Definition nn_Linear (in_features out_features : nat) (bias : bool)
  (init : LinearInit) : Layer :=
  Linear (tabulate out_features
            (fun o => tabulate in_features (weight_init init o)))
         (if bias then Some (tabulate out_features (bias_init init))
          else None).

Record Projection : Type := mkProjection {
  output_dim : nat;
  input_dim : nat;
  hidden_dim : Z;
  model : Model
}.

(** [Projection.__init__]; [init1] and [init2] feed the first and the
    second [Linear] layer. *)
Definition Projection_init (input_dim : nat) (hidden_dim : Z)
  (output_dim : nat) (init1 init2 : LinearInit) : Projection :=
  mkProjection output_dim input_dim hidden_dim
    (if (hidden_dim >? 0)%Z then
       Sequential
         [nn_Linear input_dim (Z.to_nat hidden_dim) true init1;
          BatchNorm1d (Z.to_nat hidden_dim);
          ReLU;
          nn_Linear (Z.to_nat hidden_dim) output_dim false init2]
     else
       Single (nn_Linear input_dim output_dim true init1)).

Definition dot (a b : Tensor1) : R := t_sum (map2 Rmult a b).

(** [W x], one entry per row of the weight. *)
Definition matvec (W : Tensor2) (x : Tensor1) : Tensor1 := map (dot x) W.

(** [F.linear(x, weight, bias)] on a batch of rows. *)
Definition linear_forward (W : Tensor2) (b : option Tensor1) (x : Tensor2)
  : Tensor2 :=
  map (fun row =>
         match b with
         | Some b => map2 Rplus (matvec W row) b
         | None => matvec W row
         end) x.

Section Heads.

(** The forward pass of torch's batch normalization over a batch of rows
    with the given number of features. *)
Variable batch_norm : nat -> Tensor2 -> Tensor2.

Definition Layer_forward (l : Layer) (x : Tensor2) : Tensor2 :=
  match l with
  | Linear W b => linear_forward W b x
  | BatchNorm1d k => batch_norm k x
  | ReLU => t2_map (Rmax 0) x
  end.

Definition Model_forward (m : Model) (x : Tensor2) : Tensor2 :=
  match m with
  | Single l => Layer_forward l x
  | Sequential ls => fold_left (fun acc l => Layer_forward l acc) ls x
  end.

Definition Projection_forward (P : Projection) (x : Tensor2) : Tensor2 :=
  Model_forward (model P) x.

End Heads.

(* ================================================================== *)
(** ** The VAE *)

(** An encoder backbone: its feature width and its forward pass.  A decoder
    backbone is its forward pass. *)
Record Encoder : Type := mkEncoder {
  out_dim : nat;
  enc_forward : Tensor4 -> Tensor2
}.

Definition Decoder : Type := Tensor2 -> Tensor4.

(** The arguments of [VAE.__init__], which [save_hyperparameters] records. *)
Record HParams : Type := mkHParams {
  hp_input_height : Z;
  hp_kl_coeff : R;
  hp_latent_dim : nat;
  hp_lr : R;
  hp_encoder : string;
  hp_decoder : string;
  hp_prior : string;
  hp_posterior : string;
  hp_projection : string;
  hp_first_conv : bool;
  hp_maxpool1 : bool;
  hp_unlabeled_batch : bool;
  hp_max_epochs : nat;
  hp_scheduler : bool
}.

(** The defaults of the signature of [VAE.__init__]. *)
Definition default_hparams (input_height : Z) : HParams :=
  {| hp_input_height := input_height;
     hp_kl_coeff := 0.1;
     hp_latent_dim := 256;
     hp_lr := 1e-4;
     hp_encoder := "resnet18";
     hp_decoder := "resnet18";
     hp_prior := "normal";
     hp_posterior := "normal";
     hp_projection := "linear";
     hp_first_conv := false;
     hp_maxpool1 := false;
     hp_unlabeled_batch := false;
     hp_max_epochs := 100;
     hp_scheduler := false |}.

Record VAE : Type := mkVAE {
  hparams : HParams;
  lr : R;
  input_height : Z;
  in_channels : Z;
  latent_dim : nat;
  unlabeled_batch : bool;
  projection : string;
  max_epochs : nat;
  scheduler : bool;
  encoder : Encoder;
  decoder : Decoder;
  log_scale : R;
  fc_mu : Projection;
  fc_var : Projection;
  prior : string;
  posterior : string
}.

(** The initial parameters of the two projection heads. *)
Record HeadsInit : Type := mkHeadsInit {
  mu_init1 : LinearInit;
  mu_init2 : LinearInit;
  var_init1 : LinearInit;
  var_init2 : LinearInit
}.

(** A batch of the data module: [((x1, x2, x3), y)], or, for the mixed
    loader of STL-10, a pair of two such batches. *)
Definition Views : Type := (Tensor4 * Tensor4 * Tensor4)%type.
Definition Labelled : Type := (Views * list Z)%type.

Inductive Batch : Type :=
| Plain (b : Labelled)
| Mixed (b0 b1 : Labelled).

(** The standard draws of one step: those of [q.rsample()] in [sample] and
    those of [p.rsample([1])] in [kl_divergence_mc]. *)
Record Noise : Type := mkNoise {
  eps_z : nat -> nat -> R;
  eps_kl : nat -> nat -> nat -> R
}.

(** One call of [log_dict]. *)
Record LogCall : Type := mkLogCall {
  entries : dict R;
  on_step : option bool;
  on_epoch : option bool
}.

Definition Logger : Type := list LogCall.

Definition log_dict (d : dict R) (on_step on_epoch : option bool)
  (lg : Logger) : Logger :=
  (lg ++ [mkLogCall d on_step on_epoch])%list.

(** [{f"{prefix}{k}": v for k, v in logs.items()}]. *)
Definition prefix_keys (prefix : string) (logs : dict R) : dict R :=
  map (fun kv => ((prefix ++ fst kv)%string, snd kv)) logs.

(** The local variables of [VAE.step] once the batch is unpacked and the
    forward pass has returned. *)
Record StepLocals : Type := mkStepLocals {
  s_x1 : Tensor4;
  s_x2 : Tensor4;
  s_z : Tensor2;
  s_x1_hat : Tensor4;
  s_p : Distribution;
  s_q : Distribution;
  s_log_pxz : Tensor1;
  s_log_qz : Tensor2;
  s_log_pz : Tensor2;
  s_kl : Tensor1;
  s_elbo : R;
  s_bpd : R;
  s_gini : Tensor1;
  s_n : R;
  s_marg_log_px : R
}.

Section Orchestrator.

(** The collaborators the module imports: the ResNet factories, batch
    normalization, and the Gini score of the metrics module. *)
Variable resnet18_encoder resnet50_encoder : bool -> bool -> Encoder.
Variable resnet18_decoder resnet50_decoder :
  nat -> Z -> bool -> bool -> Decoder.
Variable batch_norm : nat -> Tensor2 -> Tensor2.
Variable gini_score : Tensor2 -> Tensor1.

Definition encoders : dict (bool -> bool -> Encoder) :=
  [("resnet18", resnet18_encoder); ("resnet50", resnet50_encoder)].

Definition decoders : dict (nat -> Z -> bool -> bool -> Decoder) :=
  [("resnet18", resnet18_decoder); ("resnet50", resnet50_decoder)].

(** [VAE.__init__].  The dimensions are natural numbers and the backbone
    factories and the layers are taken to return, so the failures of
    construction in this embedding are the two registry lookups. *)
Definition VAE_init (hp : HParams) (init : HeadsInit) : result VAE :=
  mk_encoder <- dict_get encoders (hp_encoder hp) ;;
  let encoder := mk_encoder (hp_first_conv hp) (hp_maxpool1 hp) in
  mk_decoder <- dict_get decoders (hp_decoder hp) ;;
  let decoder :=
    mk_decoder (hp_latent_dim hp) (hp_input_height hp)
               (hp_first_conv hp) (hp_maxpool1 hp) in
  let log_scale := 0.0 in
  let heads :=
    if String.eqb (hp_projection hp) "linear" then
      (Projection_init (out_dim encoder) 0 (hp_latent_dim hp)
                       (mu_init1 init) (mu_init2 init),
       Projection_init (out_dim encoder) 0 (hp_latent_dim hp)
                       (var_init1 init) (var_init2 init))
    else
      (Projection_init (out_dim encoder) 2048 (hp_latent_dim hp)
                       (mu_init1 init) (mu_init2 init),
       Projection_init (out_dim encoder) 2048 (hp_latent_dim hp)
                       (var_init1 init) (var_init2 init)) in
  Ok {| hparams := hp;
        lr := hp_lr hp;
        input_height := hp_input_height hp;
        in_channels := 3;
        latent_dim := hp_latent_dim hp;
        unlabeled_batch := hp_unlabeled_batch hp;
        projection := hp_projection hp;
        max_epochs := hp_max_epochs hp;
        scheduler := hp_scheduler hp;
        encoder := encoder;
        decoder := decoder;
        log_scale := log_scale;
        fc_mu := fst heads;
        fc_var := snd heads;
        prior := hp_prior hp;
        posterior := hp_posterior hp |}.

(** [VAE.sample]. *)
Definition sample (m : VAE) (mu log_var : Tensor2) (eps : nat -> nat -> R)
  : result (Distribution * Distribution * Tensor2) :=
  let std := t2_map (fun v => exp (v / 2)) log_var in
  mk_p <- dict_get distributions (prior m) ;;
  let p := mk_p (zeros_like mu) (ones_like std) in
  mk_q <- dict_get distributions (posterior m) ;;
  let q := mk_q mu std in
  let z := rsample q eps in
  Ok (p, q, z).

(** [VAE.forward]. *)
Definition forward (m : VAE) (x : Tensor4) (eps : nat -> nat -> R)
  : result (Tensor2 * Tensor4 * Distribution * Distribution) :=
  let x := enc_forward (encoder m) x in
  let mu := Projection_forward batch_norm (fc_mu m) x in
  let log_var := Projection_forward batch_norm (fc_var m) x in
  ' (p, q, z) <- sample m mu log_var eps ;;
  Ok (z, decoder m z, p, q).

(** The first two statements of [VAE.step]: [batch = batch[0]] under
    [unlabeled_batch], then the unpacking [(x1, x2, _), y = batch], which
    raises when the batch has the other layout. *)
Definition unpack_batch (m : VAE) (batch : Batch) : result Labelled :=
  match unlabeled_batch m, batch with
  | true, Mixed b0 _ => Ok b0
  | false, Plain b => Ok b
  | true, Plain _ =>
      Raise (ValueError "too many values to unpack (expected 2)")
  | false, Mixed _ _ =>
      Raise (ValueError "not enough values to unpack (expected 3, got 2)")
  end.

(** The body of [VAE.step] up to the construction of [logs].  Its
    failures in this embedding are the unpacking and the two family
    lookups; the shape errors torch raises on views or parameters of
    unequal shapes are outside it (see the note on tensors above). *)
Definition step_locals (m : VAE) (batch : Batch) (noise : Noise)
  : result StepLocals :=
  ' (x1, x2, _, y) <- unpack_batch m batch ;;
  ' (z, x1_hat, p, q) <- forward m x1 (eps_z noise) ;;
  let log_pxz :=
    discretized_logistic x1_hat (log_scale m) x2 default_binsize in
  let log_qz := log_prob q z in
  let log_pz := log_prob p z in
  let kl := kl_divergence_mc p q 1 (eps_kl noise) in
  let elbo := t_mean (t1_map2 Rminus kl log_pxz) in
  let bpd :=
    elbo / (IZR (input_height m * input_height m * in_channels m) * ln 2.0) in
  let gini := gini_score z in
  let n := INR (length x1) in
  let marg_log_px :=
    logsumexp
      (t1_map2 Rminus (t1_map2 Rplus log_pxz (sum_last log_pz))
                      (sum_last log_qz))
    - ln n in
  Ok (mkStepLocals x1 x2 z x1_hat p q log_pxz log_qz log_pz kl elbo bpd
                   gini n marg_log_px).

Definition step_logs (l : StepLocals) : dict R :=
  [("kl", t_mean (s_kl l));
   ("elbo", s_elbo l);
   ("gini", t_mean (s_gini l));
   ("bpd", s_bpd l);
   ("log_pxz", t_mean (s_log_pxz l));
   ("marginal_log_px", s_marg_log_px l)].

(** [VAE.step]. *)
Definition step (m : VAE) (batch : Batch) (batch_idx : nat) (noise : Noise)
  : result (R * dict R) :=
  l <- step_locals m batch noise ;;
  Ok (s_elbo l, step_logs l).

(** [VAE.training_step] and [VAE.validation_step], with the logger they
    write to passed in and out. *)
Definition training_step (m : VAE) (batch : Batch) (batch_idx : nat)
  (noise : Noise) (lg : Logger) : result (R * Logger) :=
  ' (loss, logs) <- step m batch batch_idx noise ;;
  let lg := log_dict (prefix_keys "train_" logs) (Some true) (Some false) lg in
  Ok (loss, lg).

Definition validation_step (m : VAE) (batch : Batch) (batch_idx : nat)
  (noise : Noise) (lg : Logger) : result (R * Logger) :=
  ' (loss, logs) <- step m batch batch_idx noise ;;
  let lg := log_dict (prefix_keys "val_" logs) None None lg in
  Ok (loss, lg).

End Orchestrator.

(* ================================================================== *)
(** ** The specification's formulas *)

(** The likelihood in the words of the specification, pixel by pixel. *)
Module LogisticSpec.

(** The mean clamped into the interior of the pixel range. *)
Definition clamped_mean (m : R) : R := clamp (-0.5 + 1 / 512) (0.5 - 1 / 512) m.

(** The edges of the bin of width 1/256 the target falls into. *)
Definition bin_lower (x : R) : R := IZR (Zfloor (x * 256)) / 256.
Definition bin_upper (x : R) : R := bin_lower x + 1 / 256.

(** The logistic CDF with location [clamped_mean m] and scale
    [exp logscale]. *)
Definition cdf (logscale m t : R) : R :=
  sigmoid ((t - clamped_mean m) / exp logscale).

Definition pixel (logscale x m : R) : R :=
  ln (cdf logscale m (bin_upper x) - cdf logscale m (bin_lower x) + 1e-7).

(** One value per batch element: the sum of the pixel terms over the
    channel axis and the two spatial axes. *)
Definition likelihood (mean : Tensor4) (logscale : R) (sample : Tensor4)
  : Tensor1 :=
  map2 (fun img_x img_m =>
          t_sum (map2 (fun chan_x chan_m =>
            t_sum (map2 (fun row_x row_m =>
              t_sum (map2 (pixel logscale) row_x row_m))
              chan_x chan_m))
            img_x img_m))
       sample mean.

End LogisticSpec.

(** The Monte-Carlo KL term in the words of the specification: the samples
    are drawn from the posterior [q], their log-density is taken under [q]
    and under [p], the difference is averaged over the sample axis and
    summed over the latent dimensions, which estimates KL(q, p). *)
Module KLSpec.

Definition kl_estimate (p q : Distribution) (num_samples : nat)
  (eps : nat -> nat -> nat -> R) : Tensor1 :=
  let z := rsample_n q num_samples eps in
  sum_last (mean_dim0 (t3_map2 Rminus (log_prob3 q z) (log_prob3 p z))).

End KLSpec.

(** When a step can run: the batch has the layout the model unpacks, and
    both family names are keys of the registry. *)
Definition supported (name : string) : Prop :=
  dict_lookup distributions name <> None.


Definition runnable (m : VAE) (batch : Batch) : Prop :=
  (exists b, unpack_batch m batch = Ok b)
  /\ supported (prior m) /\ supported (posterior m).

(* ================================================================== *)
(** ** A small configuration

    One image of 3 x 1 x 1 pixels per batch, a feature vector of width 1
    and a latent space of dimension 1; the concrete inputs of the examples
    below. *)
Module Small.

Definition resnet_encoder : bool -> bool -> Encoder :=
  fun _ _ => mkEncoder 1 (fun x => map (fun _ => [1]) x).

Definition resnet_decoder : nat -> Z -> bool -> bool -> Decoder :=
  fun _ _ _ _ z => map (fun _ => [[[0]]; [[0]]; [[0]]]) z.

Definition batch_norm : nat -> Tensor2 -> Tensor2 := fun _ x => x.

Definition gini_score : Tensor2 -> Tensor1 := map (fun _ => 0).

Definition const_init (w b : R) : LinearInit :=
  mkLinearInit (fun _ _ => w) (fun _ => b).

(** The mean head starts as the identity, the log-variance head as zero. *)
Definition init : HeadsInit :=
  mkHeadsInit (const_init 1 0) (const_init 1 0)
              (const_init 0 0) (const_init 0 0).

Definition hp : HParams :=
  {| hp_input_height := 1;
     hp_kl_coeff := 0.1;
     hp_latent_dim := 1;
     hp_lr := 1e-4;
     hp_encoder := "resnet18";
     hp_decoder := "resnet18";
     hp_prior := "normal";
     hp_posterior := "normal";
     hp_projection := "linear";
     hp_first_conv := false;
     hp_maxpool1 := false;
     hp_unlabeled_batch := false;
     hp_max_epochs := 100;
     hp_scheduler := false |}.


Definition linear_head (w b : R) : Projection :=
  mkProjection 1 1 0 (Single (Linear [[w]] (Some [b]))).

(** What [VAE.__init__] builds from [hp] and [init], family names apart. *)
Definition vae_of (hp : HParams) : VAE :=
  {| hparams := hp;
     lr := 1e-4;
     input_height := 1;
     in_channels := 3;
     latent_dim := 1;
     unlabeled_batch := false;
     projection := "linear";
     max_epochs := 100;
     scheduler := false;
     encoder := resnet_encoder false false;
     decoder := resnet_decoder 1 1 false false;
     log_scale := 0.0;
     fc_mu := linear_head 1 0;
     fc_var := linear_head 0 0;
     prior := hp_prior hp;
     posterior := hp_posterior hp |}.

Definition vae : VAE := vae_of hp.

Definition image (v : R) : Tensor3 := [[[v]]; [[v]]; [[v]]].

Definition batch : Batch :=
  Plain (([image 0.4], [image 0.25], [image 0]), [0%Z]).

(** Every standard draw of the step is 1. *)
Definition noise : Noise := mkNoise (fun _ _ => 1) (fun _ _ _ => 1).

End Small.

(* ================================================================== *)
(** ** The optimizer configuration *)

Record Adamax : Type := mkAdamax {
  adamax_lr : R
}.

Record LinearWarmupCosineAnnealingLR : Type :=
  mkLinearWarmupCosineAnnealingLR {
  sched_optimizer : Adamax;
  warmup_epochs : nat;
  sched_max_epochs : nat;
  warmup_start_lr : R;
  eta_min : R
}.

(** What [configure_optimizers] returns: the optimizer alone, or a list of
    optimizers with a list of schedulers. *)
Inductive Optimizers : Type :=
| OptimizerOnly (optimizer : Adamax)
| WithSchedulers (optimizers : list Adamax)
                 (schedulers : list LinearWarmupCosineAnnealingLR).

(** [VAE.configure_optimizers]; the optimizer runs over the parameters of
    the model it is configured for. *)
Definition configure_optimizers (m : VAE) : Optimizers :=
  let optimizer := mkAdamax (lr m) in
  if scheduler m then
    let scheduler :=
      mkLinearWarmupCosineAnnealingLR optimizer 10 (max_epochs m) 0 1e-6 in
    WithSchedulers [optimizer] [scheduler]
  else
    OptimizerOnly optimizer.

(* ================================================================== *)
(** ** Auxiliary notions of the further properties *)

(** The sum over axes 1 to 3 of an entry-wise operation of two rank-4
    tensors, in one pass. *)
Definition sum123_map2 (f : R -> R -> R) (a b : Tensor4) : Tensor1 :=
  map2 (fun img_a img_b =>
          t_sum (map2 (fun chan_a chan_b =>
            t_sum (map2 (fun row_a row_b => t_sum (map2 f row_a row_b))
                        chan_a chan_b))
            img_a img_b))
       a b.

(** The target moved to the lower edge of its bin, as the source computes
    it: [floor(x / binsize) * binsize]. *)
Definition quantize (binsize x : R) : R := floor (x / binsize) * binsize.

(** All entries of a rank-2 tensor satisfy [P]. *)
Definition all_entries (P : R -> Prop) (t : Tensor2) : Prop :=
  Forall (Forall P) t.

(** Every row of a rank-2 tensor has [k] entries. *)
Definition has_width (k : nat) (t : Tensor2) : Prop :=
  Forall (fun row => length row = k) t.

(** The hyperparameters with another KL coefficient. *)
Definition with_kl_coeff (k : R) (hp : HParams) : HParams :=
  {| hp_input_height := hp_input_height hp;
     hp_kl_coeff := k;
     hp_latent_dim := hp_latent_dim hp;
     hp_lr := hp_lr hp;
     hp_encoder := hp_encoder hp;
     hp_decoder := hp_decoder hp;
     hp_prior := hp_prior hp;
     hp_posterior := hp_posterior hp;
     hp_projection := hp_projection hp;
     hp_first_conv := hp_first_conv hp;
     hp_maxpool1 := hp_maxpool1 hp;
     hp_unlabeled_batch := hp_unlabeled_batch hp;
     hp_max_epochs := hp_max_epochs hp;
     hp_scheduler := hp_scheduler hp |}.

(** The batch layout the model unpacks. *)
Definition layout_matches (m : VAE) (batch : Batch) : bool :=
  match unlabeled_batch m, batch with
  | true, Mixed _ _ => true
  | false, Plain _ => true
  | _, _ => false
  end.

(** More of the small configuration: a model for the mixed loader, and a
    non-linear head. *)
Module SmallMore.

Definition vae_unlabeled : VAE :=
  {| hparams := Small.hp;
     lr := 1e-4;
     input_height := 1;
     in_channels := 3;
     latent_dim := 1;
     unlabeled_batch := true;
     projection := "linear";
     max_epochs := 100;
     scheduler := false;
     encoder := Small.resnet_encoder false false;
     decoder := Small.resnet_decoder 1 1 false false;
     log_scale := 0.0;
     fc_mu := Small.linear_head 1 0;
     fc_var := Small.linear_head 0 0;
     prior := "normal";
     posterior := "normal" |}.

Definition labelled : Labelled :=
  (([Small.image 0.4], [Small.image 0.25], [Small.image 0]), [0%Z]).

(** Hyperparameters with an encoder name, and with only a decoder name,
    that the registries lack. *)
Definition hp_vgg : HParams :=
  {| hp_input_height := 1;
     hp_kl_coeff := 0.1;
     hp_latent_dim := 1;
     hp_lr := 1e-4;
     hp_encoder := "vgg16";
     hp_decoder := "unet";
     hp_prior := "normal";
     hp_posterior := "normal";
     hp_projection := "linear";
     hp_first_conv := false;
     hp_maxpool1 := false;
     hp_unlabeled_batch := false;
     hp_max_epochs := 100;
     hp_scheduler := false |}.

Definition hp_unet : HParams :=
  {| hp_input_height := 1;
     hp_kl_coeff := 0.1;
     hp_latent_dim := 1;
     hp_lr := 1e-4;
     hp_encoder := "resnet50";
     hp_decoder := "unet";
     hp_prior := "normal";
     hp_posterior := "normal";
     hp_projection := "linear";
     hp_first_conv := false;
     hp_maxpool1 := false;
     hp_unlabeled_batch := false;
     hp_max_epochs := 100;
     hp_scheduler := false |}.

(** A batch of two different images per view, with draws that differ
    between the batch elements, and a batch of two equal images. *)
Definition batch2 : Batch :=
  Plain (([Small.image 0.4; Small.image (-0.3)],
          [Small.image 0.25; Small.image 0.1],
          [Small.image 0; Small.image 0]), [0%Z; 1%Z]).

Definition noise2 : Noise :=
  mkNoise (fun n _ => INR n + 1) (fun _ n _ => 2 - INR n).

Definition batch_equal : Batch :=
  Plain (([Small.image 0.4; Small.image 0.4],
          [Small.image 0.25; Small.image 0.25],
          [Small.image 0; Small.image 0]), [0%Z; 1%Z]).

(** A batch normalization whose output is negative everywhere. *)
Definition negative_norm : nat -> Tensor2 -> Tensor2 :=
  fun _ x => t2_map (fun _ => -1) x.

End SmallMore.

(* ================================================================== *)
(** * Properties *)

Unset Implicit Arguments.

(** ** Lists and tensors *)

Section ListFacts.

Variables A B B' C D : Type.

Lemma map2_length (f : A -> B -> C) (l1 : list A) (l2 : list B) :
  length (map2 f l1 l2) = Nat.min (length l1) (length l2).
Proof.
  revert l2; induction l1 as [|a l1 IH]; intros [|b l2]; simpl; auto.
Qed.

Lemma map2_ext (f g : A -> B -> C) (l1 : list A) (l2 : list B) :
  (forall a b, f a b = g a b) -> map2 f l1 l2 = map2 g l1 l2.
Proof.
  intros E; revert l2; induction l1 as [|a l1 IH]; intros [|b l2]; simpl; auto.
  rewrite E, IH; reflexivity.
Qed.

(** A map after an element-wise operation whose right operand was itself
    mapped is one element-wise operation. *)
Lemma map_map2_map (g : C -> D) (f : A -> B' -> C) (c : B -> B')
  (h : A -> B -> D) (l1 : list A) (l2 : list B) :
  (forall a b, g (f a (c b)) = h a b) ->
  map g (map2 f l1 (map c l2)) = map2 h l1 l2.
Proof.
  intros E; revert l2; induction l1 as [|a l1 IH]; intros [|b l2]; simpl; auto.
  rewrite E, IH; reflexivity.
Qed.

Lemma imap_from_length (f : nat -> A -> B) (i : nat) (l : list A) :
  length (imap_from f i l) = length l.
Proof.
  revert i; induction l as [|a l IH]; intros i; simpl; auto.
Qed.

Lemma imap_length (f : nat -> A -> B) (l : list A) :
  length (imap f l) = length l.
Proof. apply imap_from_length. Qed.

End ListFacts.

(** ** The discretized-logistic likelihood *)

Lemma exp_neq_0 (x : R) : exp x <> 0.
Proof. pose proof (exp_pos x); lra. Qed.

Lemma sigmoid_increasing (a b : R) : a < b -> sigmoid a < sigmoid b.
Proof.
  intros Hab; unfold sigmoid.
  assert (Ha := exp_pos (- a)). assert (Hb := exp_pos (- b)).
  assert (Hexp : exp (- b) < exp (- a)) by (apply exp_increasing; lra).
  unfold Rdiv; rewrite !Rmult_1_l.
  apply Rinv_lt_contravar; [nra | lra].
Qed.

Lemma clamp_range (lo hi x : R) : lo <= hi -> lo <= clamp lo hi x <= hi.
Proof.
  intros Hle; unfold clamp, Rmin, Rmax.
  destruct (Rle_dec x lo); destruct (Rle_dec _ hi); lra.
Qed.

(** The logarithm of the source is taken of a positive number, whatever the
    inputs: the sigmoid difference over a bin is positive. *)
Lemma discretized_logistic_log_arg_pos (logscale s binsize : R) :
  0 < binsize ->
  1e-7 < sigmoid (s + binsize / exp logscale) - sigmoid s + 1e-7.
Proof.
  intros Hb.
  assert (Hs := exp_pos logscale).
  assert (0 < binsize / exp logscale) by (apply Rdiv_lt_0_compat; lra).
  assert (sigmoid s < sigmoid (s + binsize / exp logscale))
    by (apply sigmoid_increasing; lra).
  lra.
Qed.

Lemma bin_contains_target (x : R) :
  LogisticSpec.bin_lower x <= x < LogisticSpec.bin_upper x.
Proof.
  unfold LogisticSpec.bin_upper, LogisticSpec.bin_lower.
  pose proof (Zfloor_bound (x * 256)) as [Hlo Hhi]. lra.
Qed.

Lemma pixel_term_agrees (logscale x m : R) :
  ln (sigmoid
        ((floor (x / default_binsize) * default_binsize
          - clamp (-0.5 + 1 / 512) (0.5 - 1 / 512) m) / exp logscale
         + default_binsize / exp logscale)
      - sigmoid
          ((floor (x / default_binsize) * default_binsize
            - clamp (-0.5 + 1 / 512) (0.5 - 1 / 512) m) / exp logscale)
      + 1e-7)
  = LogisticSpec.pixel logscale x m.
Proof.
  unfold LogisticSpec.pixel, LogisticSpec.cdf, LogisticSpec.bin_upper,
    LogisticSpec.bin_lower, LogisticSpec.clamped_mean, floor, default_binsize.
  assert (Hs := exp_neq_0 logscale).
  replace (x / (1 / 256)) with (x * 256) by field.
  set (lower := IZR (Zfloor (x * 256))).
  set (mu := clamp _ _ m).
  replace ((lower * (1 / 256) - mu) / exp logscale + 1 / 256 / exp logscale)
    with ((lower / 256 + 1 / 256 - mu) / exp logscale) by (field; exact Hs).
  replace (lower * (1 / 256)) with (lower / 256) by field.
  reflexivity.
Qed.

Lemma discretized_logistic_refines (mean : Tensor4) (logscale : R)
  (sample : Tensor4) :
  discretized_logistic mean logscale sample default_binsize
  = LogisticSpec.likelihood mean logscale sample.
Proof.
  unfold discretized_logistic, LogisticSpec.likelihood, sum_dim123, t4_map,
    t4_map2.
  rewrite map_map.
  apply map_map2_map; intros img_x img_m.
  f_equal; rewrite map_map.
  apply map_map2_map; intros chan_x chan_m.
  f_equal; rewrite map_map.
  apply map_map2_map; intros row_x row_m.
  f_equal.
  apply map_map2_map; intros x m.
  apply pixel_term_agrees.
Qed.

(** C4.  On a mean and a target of shape (N, C, H, W) the discretized
    logistic likelihood of the source is the likelihood of the
    specification: the mean is clamped into [-0.5 + 1/512, 0.5 - 1/512],
    the scale is [exp log_scale], the target is put into its bin of width
    1/256, each pixel contributes
    [log (sigmoid (upper edge) - sigmoid (lower edge) + 1e-7)], and the
    terms are summed over the channel and the two spatial axes, which leaves
    exactly one value per batch element. *)
Theorem discretized_logistic_correct
  (mean : Tensor4) (logscale : R) (sample : Tensor4) (n c h w : nat) :
  has_shape4 n c h w mean ->
  has_shape4 n c h w sample ->
  discretized_logistic mean logscale sample default_binsize
    = LogisticSpec.likelihood mean logscale sample
  /\ length (discretized_logistic mean logscale sample default_binsize) = n
  /\ (forall m, -0.5 + 1 / 512 <= LogisticSpec.clamped_mean m <= 0.5 - 1 / 512)
  /\ (forall x, LogisticSpec.bin_lower x <= x < LogisticSpec.bin_upper x
                /\ LogisticSpec.bin_upper x - LogisticSpec.bin_lower x = 1 / 256
                /\ exists k : Z, LogisticSpec.bin_lower x = IZR k / 256).
Proof.
  intros [Hm _] [Hs _].
  split; [apply discretized_logistic_refines|].
  split.
  - rewrite discretized_logistic_refines.
    unfold LogisticSpec.likelihood. rewrite map2_length.
    unfold Tensor4, Tensor3, Tensor2, Tensor1 in *. lia.
  - split.
    + intros m; apply clamp_range; lra.
    + intros x; split; [apply bin_contains_target|].
      split; [unfold LogisticSpec.bin_upper; lra|].
      exists (Zfloor (x * 256)); reflexivity.
Qed.

(** ** The step function *)

Lemma bind_Ok_inv (A B : Type) (r : result A) (k : A -> result B) (b : B) :
  bind r k = Ok b -> exists a, r = Ok a /\ k a = Ok b.
Proof. destruct r as [a|e]; simpl; [eauto | discriminate]. Qed.

Lemma supported_family (name : string) :
  supported name ->
  exists F, dict_get distributions name = Ok (mkDistribution F).
Proof.
  unfold supported, dict_get, distributions; cbn [dict_lookup].
  destruct (String.eqb "laplace" name); [eauto|].
  destruct (String.eqb "normal" name); [eauto | congruence].
Qed.



Lemma dict_get_key (V : Type) (d : dict V) (k : string) :
  In k (dict_keys d) -> exists v, dict_get d k = Ok v.
Proof.
  unfold dict_get, dict_keys.
  induction d as [|[k' v] d IH]; simpl; [tauto|].
  destruct (String.eqb_spec k' k) as [->|Hne]; [eauto|].
  intros [E|Hin]; [contradiction | auto].
Qed.

Section StepFacts.

Variable batch_norm : nat -> Tensor2 -> Tensor2.
Variable gini_score : Tensor2 -> Tensor1.

(** With both family names in the registry the forward pass returns: the
    prior has zero location and unit scale, the posterior has the projected
    mean and [exp (log_var / 2)], [z] is drawn from the posterior and
    decoded. *)
Lemma forward_returns (m : VAE) (x : Tensor4) (eps : nat -> nat -> R) :
  supported (prior m) -> supported (posterior m) ->
  exists Fp Fq,
    let h := enc_forward (encoder m) x in
    let mu := Projection_forward batch_norm (fc_mu m) h in
    let std := t2_map (fun v => exp (v / 2))
                      (Projection_forward batch_norm (fc_var m) h) in
    let p := mkDistribution Fp (zeros_like mu) (ones_like std) in
    let q := mkDistribution Fq mu std in
    dict_get distributions (prior m) = Ok (mkDistribution Fp) /\
    dict_get distributions (posterior m) = Ok (mkDistribution Fq) /\
    forward batch_norm m x eps
    = Ok (rsample q eps, decoder m (rsample q eps), p, q).
Proof.
  intros Hp Hq.
  destruct (supported_family _ Hp) as [Fp HFp].
  destruct (supported_family _ Hq) as [Fq HFq].
  exists Fp, Fq; simpl.
  split; [exact HFp|]. split; [exact HFq|].
  unfold forward, sample. rewrite HFp; simpl. rewrite HFq; simpl.
  reflexivity.
Qed.

(** What the local variables of a step that returned are. *)
Lemma step_locals_inv (m : VAE) (batch : Batch) (noise : Noise)
  (l : StepLocals) :
  step_locals batch_norm gini_score m batch noise = Ok l ->
  (exists x3 y, unpack_batch m batch = Ok (s_x1 l, s_x2 l, x3, y))
  /\ forward batch_norm m (s_x1 l) (eps_z noise)
     = Ok (s_z l, s_x1_hat l, s_p l, s_q l)
  /\ s_log_pxz l
     = discretized_logistic (s_x1_hat l) (log_scale m) (s_x2 l) default_binsize
  /\ s_log_qz l = log_prob (s_q l) (s_z l)
  /\ s_log_pz l = log_prob (s_p l) (s_z l)
  /\ s_kl l = kl_divergence_mc (s_p l) (s_q l) 1 (eps_kl noise)
  /\ s_elbo l = t_mean (t1_map2 Rminus (s_kl l) (s_log_pxz l))
  /\ s_bpd l
     = s_elbo l
       / (IZR (input_height m * input_height m * in_channels m) * ln 2.0)
  /\ s_gini l = gini_score (s_z l)
  /\ s_n l = INR (length (s_x1 l))
  /\ s_marg_log_px l
     = logsumexp
         (t1_map2 Rminus
            (t1_map2 Rplus (s_log_pxz l) (sum_last (s_log_pz l)))
            (sum_last (s_log_qz l)))
       - ln (s_n l).
Proof.
  unfold step_locals.
  destruct (unpack_batch m batch) as [[[[x1 x2] x3] y]|e]; simpl;
    [|discriminate].
  destruct (forward batch_norm m x1 (eps_z noise))
    as [[[[z x1_hat] p] q]|e] eqn:Hf; simpl; [|discriminate].
  intros H; injection H as <-; simpl.
  split; [eauto|]. repeat split; assumption || reflexivity.
Qed.

(** A runnable step returns. *)
Lemma step_locals_returns (m : VAE) (batch : Batch) (noise : Noise) :
  runnable m batch ->
  exists l, step_locals batch_norm gini_score m batch noise = Ok l.
Proof.
  intros [[[[[x1 x2] x3] y] Hb] [Hp Hq]].
  destruct (forward_returns m x1 (eps_z noise) Hp Hq) as (Fp & Fq & _ & _ & Hf).
  unfold step_locals. rewrite Hb; simpl. rewrite Hf; simpl. eauto.
Qed.

Lemma step_of_locals (m : VAE) (batch : Batch) (idx : nat) (noise : Noise)
  (l : StepLocals) :
  step_locals batch_norm gini_score m batch noise = Ok l ->
  step batch_norm gini_score m batch idx noise = Ok (s_elbo l, step_logs l).
Proof. unfold step; intros ->; reflexivity. Qed.

Lemma step_Ok_inv (m : VAE) (batch : Batch) (idx : nat) (noise : Noise)
  (elbo : R) (logs : dict R) :
  step batch_norm gini_score m batch idx noise = Ok (elbo, logs) ->
  exists l, step_locals batch_norm gini_score m batch noise = Ok l
            /\ elbo = s_elbo l /\ logs = step_logs l.
Proof.
  unfold step; intros H.
  apply bind_Ok_inv in H as (l & Hl & H).
  injection H as <- <-; eauto.
Qed.

(** Every part of a step that returns, written out: on a batch that
    unpacks to the views (x1, x2), with the families the two names stand
    for, the step returns the objective and the six logged metrics computed
    from the encoding of [x1], the draw [z] from the posterior, the
    decoding of [z] and the target [x2]. *)
Lemma step_written_out
  (m : VAE) (batch : Batch) (idx : nat) (noise : Noise)
  (x1 x2 x3 : Tensor4) (y : list Z) (Fp Fq : Family) :
  unpack_batch m batch = Ok (x1, x2, x3, y) ->
  dict_get distributions (prior m) = Ok (mkDistribution Fp) ->
  dict_get distributions (posterior m) = Ok (mkDistribution Fq) ->
  let h := enc_forward (encoder m) x1 in
  let mu := Projection_forward batch_norm (fc_mu m) h in
  let std := t2_map (fun v => exp (v / 2))
                    (Projection_forward batch_norm (fc_var m) h) in
  let p := mkDistribution Fp (zeros_like mu) (ones_like std) in
  let q := mkDistribution Fq mu std in
  let z := rsample q (eps_z noise) in
  let x1_hat := decoder m z in
  let log_pxz :=
    discretized_logistic x1_hat (log_scale m) x2 default_binsize in
  let kl := kl_divergence_mc p q 1 (eps_kl noise) in
  let elbo := t_mean (t1_map2 Rminus kl log_pxz) in
  let marg :=
    ln (t_sum
          (map exp
             (map2 Rminus
                (map2 Rplus log_pxz (map t_sum (log_prob p z)))
                (map t_sum (log_prob q z)))))
    - ln (INR (length x1)) in
  step batch_norm gini_score m batch idx noise
  = Ok (elbo,
        [("kl", t_mean kl);
         ("elbo", elbo);
         ("gini", t_mean (gini_score z));
         ("bpd",
          elbo / (IZR (input_height m * input_height m * in_channels m)
                  * ln 2.0));
         ("log_pxz", t_mean log_pxz);
         ("marginal_log_px", marg)]).
Proof.
  intros Hb Hp Hq; cbv zeta.
  unfold step, step_locals, forward, sample.
  rewrite Hb; cbn [bind]. rewrite Hp; cbn [bind]. rewrite Hq; cbn [bind].
  reflexivity.
Qed.

(** C6.  For every batch of two views (x1, x2) the step can run on, the
    objective is the mean over the batch of (KL - log_pxz): the Monte-Carlo
    KL term between the prior and the posterior of the encoded [x1], minus
    the discretized-logistic log-likelihood of [x2] under the decoding of
    the latent sample.  This one scalar is what [step] returns and logs as
    "elbo", and what [training_step] and [validation_step] both return as
    the loss; the two differ in the logging call only (the key prefix and
    the [on_step]/[on_epoch] flags), with the same logged values. *)
Theorem training_and_validation_return_elbo
  (m : VAE) (batch : Batch) (idx : nat) (noise : Noise) (lg : Logger)
  (x1 x2 x3 : Tensor4) (y : list Z) :
  unpack_batch m batch = Ok (x1, x2, x3, y) ->
  supported (prior m) -> supported (posterior m) ->
  exists Fp Fq,
    dict_get distributions (prior m) = Ok (mkDistribution Fp)
    /\ dict_get distributions (posterior m) = Ok (mkDistribution Fq)
    /\ let h := enc_forward (encoder m) x1 in
       let mu := Projection_forward batch_norm (fc_mu m) h in
       let std := t2_map (fun v => exp (v / 2))
                         (Projection_forward batch_norm (fc_var m) h) in
       let p := mkDistribution Fp (zeros_like mu) (ones_like std) in
       let q := mkDistribution Fq mu std in
       let z := rsample q (eps_z noise) in
       let x1_hat := decoder m z in
       let log_pxz :=
         discretized_logistic x1_hat (log_scale m) x2 default_binsize in
       let kl := kl_divergence_mc p q 1 (eps_kl noise) in
       let elbo := t_mean (t1_map2 Rminus kl log_pxz) in
       exists logs,
         step batch_norm gini_score m batch idx noise = Ok (elbo, logs)
         /\ dict_lookup logs "elbo" = Some elbo
         /\ dict_lookup logs "kl" = Some (t_mean kl)
         /\ dict_lookup logs "log_pxz" = Some (t_mean log_pxz)
         /\ training_step batch_norm gini_score m batch idx noise lg
            = Ok (elbo,
                  (lg ++ [mkLogCall (prefix_keys "train_" logs)
                                    (Some true) (Some false)])%list)
         /\ validation_step batch_norm gini_score m batch idx noise lg
            = Ok (elbo,
                  (lg ++ [mkLogCall (prefix_keys "val_" logs)
                                    None None])%list).
Proof.
  intros Hb Hp Hq.
  destruct (supported_family _ Hp) as [Fp HFp].
  destruct (supported_family _ Hq) as [Fq HFq].
  exists Fp, Fq. split; [exact HFp|]. split; [exact HFq|]. cbv zeta.
  pose proof (step_written_out m batch idx noise x1 x2 x3 y Fp Fq
                Hb HFp HFq) as Hstep.
  cbv zeta in Hstep.
  eexists. split; [exact Hstep|].
  split; [reflexivity|]. split; [reflexivity|]. split; [reflexivity|].
  unfold training_step, validation_step. rewrite Hstep.
  split; reflexivity.
Qed.

(** C7.  With the image shape (H, W, C) of the model (its [input_height]
    for both H and W, its [in_channels] for C), the logged bits-per-dimension
    is [elbo / (H * W * C * ln 2)]; and whenever another step on images of
    that shape has [c * elbo] as its objective, its bits-per-dimension is
    [c] times as large. *)
Theorem bpd_proportional_to_elbo
  (m : VAE) (batch : Batch) (idx : nat) (noise : Noise) (H W C : Z) :
  runnable m batch ->
  input_height m = H -> input_height m = W -> in_channels m = C ->
  exists elbo logs,
    step batch_norm gini_score m batch idx noise = Ok (elbo, logs)
    /\ dict_lookup logs "bpd" = Some (elbo / (IZR H * IZR W * IZR C * ln 2))
    /\ forall (m' : VAE) (batch' : Batch) (idx' : nat) (noise' : Noise)
              (elbo' : R) (logs' : dict R) (c : R),
         input_height m' = H -> input_height m' = W -> in_channels m' = C ->
         step batch_norm gini_score m' batch' idx' noise'
         = Ok (elbo', logs') ->
         elbo' = c * elbo ->
         dict_lookup logs' "bpd"
         = Some (c * (elbo / (IZR H * IZR W * IZR C * ln 2))).
Proof.
  intros Hrun HH HW HC.
  destruct (step_locals_returns m batch noise Hrun) as [l Hl].
  pose proof (step_locals_inv _ _ _ _ Hl)
    as (_ & _ & _ & _ & _ & _ & _ & Hbpd & _).
  exists (s_elbo l), (step_logs l).
  split; [apply step_of_locals; exact Hl|].
  assert (Hden : forall m0 : VAE,
             input_height m0 = H -> input_height m0 = W ->
             in_channels m0 = C ->
             IZR (input_height m0 * input_height m0 * in_channels m0) * ln 2.0
             = IZR H * IZR W * IZR C * ln 2).
  { intros m0 E1 E2 E3. rewrite !mult_IZR, E3. rewrite E1 at 1. rewrite E2.
    replace 2.0 with 2 by lra. reflexivity. }
  split.
  - change (Some (s_bpd l)
            = Some (s_elbo l / (IZR H * IZR W * IZR C * ln 2))).
    rewrite Hbpd, (Hden m HH HW HC); reflexivity.
  - intros m' batch' idx' noise' elbo' logs' c HH' HW' HC' Hstep' Hc.
    apply step_Ok_inv in Hstep' as (l' & Hl' & -> & ->).
    pose proof (step_locals_inv _ _ _ _ Hl')
      as (_ & _ & _ & _ & _ & _ & _ & Hbpd' & _).
    change (Some (s_bpd l')
            = Some (c * (s_elbo l / (IZR H * IZR W * IZR C * ln 2)))).
    rewrite Hbpd', (Hden m' HH' HW' HC'), Hc.
    f_equal; unfold Rdiv; ring.
Qed.

(** C8.  The reconstruction term of a step on the views (x1, x2) is the
    discretized-logistic likelihood of the second view [x2] under
    [x1_hat], the decoding of the latent sample that the posterior of the
    encoded first view [x1] yields; [x1] enters through the forward pass
    only. *)
Theorem log_pxz_is_cross_view
  (m : VAE) (batch : Batch) (noise : Noise)
  (x1 x2 x3 : Tensor4) (y : list Z) :
  unpack_batch m batch = Ok (x1, x2, x3, y) ->
  supported (prior m) -> supported (posterior m) ->
  exists z x1_hat p q l,
    forward batch_norm m x1 (eps_z noise) = Ok (z, x1_hat, p, q)
    /\ loc q = Projection_forward batch_norm (fc_mu m)
                                  (enc_forward (encoder m) x1)
    /\ z = rsample q (eps_z noise)
    /\ x1_hat = decoder m z
    /\ step_locals batch_norm gini_score m batch noise = Ok l
    /\ s_log_pxz l
       = discretized_logistic x1_hat (log_scale m) x2 default_binsize
    /\ dict_lookup (step_logs l) "log_pxz"
       = Some (t_mean (discretized_logistic x1_hat (log_scale m) x2
                                            default_binsize)).
Proof.
  intros Hb Hp Hq.
  destruct (forward_returns m x1 (eps_z noise) Hp Hq)
    as (Fp & Fq & _ & _ & Hf).
  simpl in Hf.
  eexists _, _, _, _, _.
  split; [exact Hf|].
  split; [reflexivity|]. split; [reflexivity|]. split; [reflexivity|].
  unfold step_locals. rewrite Hb; simpl. rewrite Hf; simpl.
  split; [reflexivity|]. split; reflexivity.
Qed.

(** C9.  For a batch of n examples with the views (x1, x2), the marginal
    log-likelihood diagnostic that the step logs is
    [logsumexp (log_pxz + log_pz - log_qz) - log n], taken over the batch
    axis: log_pxz is the likelihood of [x2] under the decoding of the latent
    sample [z], and log_pz and log_qz are the log-densities of [z] under the
    prior and under the posterior, summed over the latent dimensions.  The
    n weights of the batch go into one sum: the diagnostic is one scalar
    for the whole batch. *)
Theorem marginal_log_px_mixes_batch
  (m : VAE) (batch : Batch) (idx : nat) (noise : Noise)
  (x1 x2 x3 : Tensor4) (y : list Z) :
  unpack_batch m batch = Ok (x1, x2, x3, y) ->
  supported (prior m) -> supported (posterior m) ->
  exists Fp Fq,
    dict_get distributions (prior m) = Ok (mkDistribution Fp)
    /\ dict_get distributions (posterior m) = Ok (mkDistribution Fq)
    /\ let h := enc_forward (encoder m) x1 in
       let mu := Projection_forward batch_norm (fc_mu m) h in
       let std := t2_map (fun v => exp (v / 2))
                         (Projection_forward batch_norm (fc_var m) h) in
       let p := mkDistribution Fp (zeros_like mu) (ones_like std) in
       let q := mkDistribution Fq mu std in
       let z := rsample q (eps_z noise) in
       let log_pxz :=
         discretized_logistic (decoder m z) (log_scale m) x2
                              default_binsize in
       let log_pz := map t_sum (log_prob p z) in
       let log_qz := map t_sum (log_prob q z) in
       let weights := map2 Rminus (map2 Rplus log_pxz log_pz) log_qz in
       exists elbo logs,
         step batch_norm gini_score m batch idx noise = Ok (elbo, logs)
         /\ dict_lookup logs "marginal_log_px"
            = Some (ln (t_sum (map exp weights)) - ln (INR (length x1))).
Proof.
  intros Hb Hp Hq.
  destruct (supported_family _ Hp) as [Fp HFp].
  destruct (supported_family _ Hq) as [Fq HFq].
  exists Fp, Fq. split; [exact HFp|]. split; [exact HFq|]. cbv zeta.
  pose proof (step_written_out m batch idx noise x1 x2 x3 y Fp Fq
                Hb HFp HFq) as Hstep.
  cbv zeta in Hstep.
  eexists _, _. split; [exact Hstep | reflexivity].
Qed.

End StepFacts.

(** ** Construction and the family names *)

Section Construction.

Variable resnet18_encoder resnet50_encoder : bool -> bool -> Encoder.
Variable resnet18_decoder resnet50_decoder :
  nat -> Z -> bool -> bool -> Decoder.
Variable batch_norm : nat -> Tensor2 -> Tensor2.
Variable gini_score : Tensor2 -> Tensor1.




End Construction.

(** ** The linear projection head *)

(** C3, as the code has it.  A projection head built with [hidden_dim = 0]
    is the single layer [nn.Linear(input_dim, output_dim)], which keeps the
    default bias: on every input row [x] it computes the affine map
    [W x + b], with no hidden layer and no nonlinearity, where [W] and [b]
    are the layer's weight and bias, and its output has [output_dim]
    entries. *)
Theorem linear_projection_is_affine
  (batch_norm : nat -> Tensor2 -> Tensor2)
  (input_dim output_dim : nat) (init1 init2 : LinearInit) (x : Tensor2) :
  let P := Projection_init input_dim 0 output_dim init1 init2 in
  let W := tabulate output_dim
             (fun o => tabulate input_dim (weight_init init1 o)) in
  let b := tabulate output_dim (bias_init init1) in
  model P = Single (Linear W (Some b))
  /\ Projection_forward batch_norm P x
     = map (fun row => map2 Rplus (matvec W row) b) x
  /\ Forall (fun out => length out = output_dim)
            (Projection_forward batch_norm P x).
Proof.
  simpl. split; [reflexivity|]. split; [reflexivity|].
  unfold Projection_forward, Projection_init; simpl.
  unfold linear_forward. apply Forall_forall; intros out Hin.
  apply in_map_iff in Hin as (row & <- & _).
  rewrite map2_length. unfold matvec, tabulate.
  rewrite !length_map, !length_seq. apply Nat.min_id.
Qed.

(** ** The Monte-Carlo KL estimator on equal distributions *)

Lemma map2_diag (A C : Type) (f : A -> A -> C) (l : list A) :
  map2 f l l = map (fun a => f a a) l.
Proof. induction l as [|a l IH]; simpl; [|rewrite IH]; reflexivity. Qed.

Lemma map_const_repeat (A B : Type) (c : B) (l : list A) :
  map (fun _ => c) l = repeat c (length l).
Proof. induction l as [|a l IH]; simpl; [|rewrite IH]; reflexivity. Qed.

Lemma zeros_like_shape (a b : Tensor2) :
  same_shape2 a b -> zeros_like a = zeros_like b.
Proof.
  unfold same_shape2, zeros_like, t2_map.
  revert b; induction a as [|r a IH]; intros [|r' b]; simpl;
    try discriminate; [reflexivity|].
  intros H; injection H as Hr Hrest.
  rewrite (IH b Hrest), !map_const_repeat, Hr; reflexivity.
Qed.

Lemma t2_sub_diag (t : Tensor2) : t2_map2 Rminus t t = zeros_like t.
Proof.
  unfold t2_map2, zeros_like, t2_map. rewrite map2_diag.
  apply map_ext; intros r. rewrite map2_diag.
  apply map_ext; intros v. apply Rminus_diag.
Qed.

Lemma t2_add_zeros (t : Tensor2) :
  t2_map2 Rplus (zeros_like t) (zeros_like t) = zeros_like t.
Proof.
  unfold t2_map2, zeros_like, t2_map. rewrite map2_diag, map_map.
  apply map_ext; intros r. rewrite map2_diag, map_map.
  apply map_ext; intros v. apply Rplus_0_l.
Qed.

Lemma fold_add_zeros (A : Type) (t : Tensor2) (l : list A) :
  fold_left (t2_map2 Rplus) (map (fun _ => zeros_like t) l) (zeros_like t)
  = zeros_like t.
Proof.
  induction l as [|a l IH]; simpl; [reflexivity|].
  rewrite t2_add_zeros; exact IH.
Qed.

Lemma t2_scale_zeros (c : R) (t : Tensor2) :
  t2_map (fun v => v / c) (zeros_like t) = zeros_like t.
Proof.
  unfold zeros_like, t2_map. rewrite map_map.
  apply map_ext; intros r. rewrite map_map.
  apply map_ext; intros v. unfold Rdiv; apply Rmult_0_l.
Qed.

Lemma t_sum_zeros (A : Type) (l : list A) : t_sum (map (fun _ => 0) l) = 0.
Proof.
  unfold t_sum; induction l as [|a l IH]; simpl; [|rewrite IH; lra];
    reflexivity.
Qed.

Lemma sum_last_zeros (t : Tensor2) :
  sum_last (zeros_like t) = repeat 0 (length t).
Proof.
  unfold sum_last, zeros_like, t2_map. rewrite map_map, <- map_const_repeat.
  apply map_ext; intros r. apply t_sum_zeros.
Qed.

(** A draw has the shape of the location, and so has its log-density. *)
Lemma rsample_rows_shape (f : Family) (eps : nat -> nat -> R)
  (L S : Tensor2) (i : nat) :
  map (@length R) L = map (@length R) S ->
  map (@length R)
      (imap_from
         (fun n ls =>
            imap (fun j l_s =>
                    rsample_entry f (fst l_s) (snd l_s) (eps n j))
                 (combine (fst ls) (snd ls)))
         i (combine L S))
  = map (@length R) L.
Proof.
  revert S i; induction L as [|r L IH]; intros [|r' S] i; simpl;
    try discriminate; [reflexivity|].
  intros H; injection H as Hr Hrest.
  rewrite (IH S (Datatypes.S i) Hrest), imap_length, length_combine, <- Hr,
    Nat.min_id.
  reflexivity.
Qed.

Lemma rsample_shape (d : Distribution) (eps : nat -> nat -> R) :
  same_shape2 (loc d) (scale d) -> same_shape2 (rsample d eps) (loc d).
Proof. intros H; apply rsample_rows_shape; exact H. Qed.

Lemma log_prob_shape (d : Distribution) (value : Tensor2) :
  same_shape2 (loc d) (scale d) -> same_shape2 value (loc d) ->
  same_shape2 (log_prob d value) (loc d).
Proof.
  unfold same_shape2, log_prob.
  generalize (family d) as f, (loc d) as L, (scale d) as S.
  intros f L; revert value; induction L as [|r L IH];
    intros [|x value] [|r' S]; simpl; try discriminate; try reflexivity.
  intros H1 H2; injection H1 as Hr Hrest; injection H2 as Hx Hvrest.
  rewrite (IH value S Hrest Hvrest), map2_length, length_combine, <- Hr, Hx,
    !Nat.min_id.
  reflexivity.
Qed.





(* ================================================================== *)
(** * The small configuration, evaluated *)

Ltac unfold_tensor_ops :=
  unfold kl_divergence_mc, KLSpec.kl_estimate, rsample_n, log_prob3, rsample,
    log_prob, imap, Projection_forward, linear_forward, matvec, sum_last,
    mean_dim0, t3_map2, t2_map2, t2_map, zeros_like, ones_like, dot, t_sum.

(** Equal nested lists of reals, entry by entry. *)
Ltac tensor_eq :=
  repeat match goal with
         | |- (_ :: _) = (_ :: _) => apply (f_equal2 cons)
         | |- [] = [] => reflexivity
         | |- @eq R _ _ => lra
         end.

Lemma exp_half_0 (v : R) : v = 0 -> exp (v / 2) = 1.
Proof. intros ->. replace (0 / 2) with 0 by lra. apply exp_0. Qed.

Lemma small_init :
  VAE_init Small.resnet_encoder Small.resnet_encoder
           Small.resnet_decoder Small.resnet_decoder Small.hp Small.init
  = Ok Small.vae.
Proof. reflexivity. Qed.

Lemma small_supported : supported "normal".
Proof. unfold supported; cbv; discriminate. Qed.

Lemma small_runnable : runnable Small.vae Small.batch.
Proof.
  split; [eexists; reflexivity|].
  split; exact small_supported.
Qed.


(** The KL term of the source is the estimator of the specification with
    the two distributions exchanged: applied to (prior, posterior), as the
    step applies it, it draws from the prior. *)
Lemma kl_divergence_mc_exchanged (p q : Distribution) (num_samples : nat)
  (eps : nat -> nat -> nat -> R) :
  kl_divergence_mc p q num_samples eps
  = KLSpec.kl_estimate q p num_samples eps.
Proof. reflexivity. Qed.

(** C1, at a failing input.  In the small configuration the prior is
    Normal(0, 1), the posterior is Normal(1, 1) and the standard draw is 1.
    The KL term of the step takes its sample from the prior, the first
    argument of [kl_divergence_mc]: the sample is 1 and the term is
    [log p(1) - log q(1) = -1/2].  The estimator of the claim takes it from
    the posterior: the sample is 2 and the estimate of KL(q, p) is
    [log q(2) - log p(2) = 3/2]. *)
Theorem step_kl_draws_from_prior :
  exists l,
    step_locals Small.batch_norm Small.gini_score
                Small.vae Small.batch Small.noise = Ok l
    /\ s_p l = mkDistribution Normal [[0]] [[1]]
    /\ s_q l = mkDistribution Normal [[1]] [[1]]
    /\ rsample_n (s_p l) 1 (eps_kl Small.noise) = [[[1]]]
    /\ rsample_n (s_q l) 1 (eps_kl Small.noise) = [[[2]]]
    /\ s_kl l = [-1 / 2]
    /\ KLSpec.kl_estimate (s_p l) (s_q l) 1 (eps_kl Small.noise) = [3 / 2].
Proof.
  eexists. split; [reflexivity|].
  simpl. repeat (unfold_tensor_ops; simpl).
  rewrite (exp_half_0 (1 * 0 + 0 + 0)) by lra.
  rewrite ln_1.
  repeat split; try (apply f_equal2); tensor_eq.
Qed.



(** C3, refuted as stated: a linear head whose weight is 0 and whose bias
    is 1 sends the zero vector to 1, which no bias-free matrix-vector
    product does. *)
Lemma linear_projection_has_bias :
  hidden_dim (Projection_init 1 0 1 (Small.const_init 0 1)
                              (Small.const_init 0 1)) = 0%Z
  /\ Projection_forward Small.batch_norm
       (Projection_init 1 0 1 (Small.const_init 0 1) (Small.const_init 0 1))
       [[0]]
     = [[1]]
  /\ forall W : Tensor2, map (matvec W) [[0]] <> [[1]].
Proof.
  split; [reflexivity|]. split.
  - repeat (unfold_tensor_ops; simpl). tensor_eq.
  - intros W H. simpl in H. injection H as H.
    destruct W as [|w W]; [discriminate|].
    simpl in H; injection H as H _.
    unfold dot, t_sum in H.
    destruct w as [|w0 w]; simpl in H; lra.
Qed.

Lemma discretized_logistic_correct_witness :
  has_shape4 1 3 1 1 [Small.image 0]
  /\ has_shape4 1 3 1 1 [Small.image 0.4]
  /\ discretized_logistic [Small.image 0] 0 [Small.image 0.4] default_binsize
     = LogisticSpec.likelihood [Small.image 0] 0 [Small.image 0.4]
  /\ length (discretized_logistic [Small.image 0] 0 [Small.image 0.4]
                                  default_binsize) = 1%nat.
Proof.
  assert (Hm : has_shape4 1 3 1 1 [Small.image 0])
    by (unfold has_shape4; simpl; repeat constructor).
  assert (Hs : has_shape4 1 3 1 1 [Small.image 0.4])
    by (unfold has_shape4; simpl; repeat constructor).
  split; [exact Hm|]. split; [exact Hs|].
  destruct (discretized_logistic_correct
              [Small.image 0] 0 [Small.image 0.4] 1 3 1 1 Hm Hs)
    as (Heq & Hlen & _).
  split; [exact Heq | exact Hlen].
Defined.

Lemma small_unpack2 :
  unpack_batch Small.vae SmallMore.batch2
  = Ok ([Small.image 0.4; Small.image (-0.3)],
        [Small.image 0.25; Small.image 0.1],
        [Small.image 0; Small.image 0], [0%Z; 1%Z]).
Proof. reflexivity. Qed.

Lemma training_and_validation_return_elbo_witness :
  unpack_batch Small.vae SmallMore.batch2
  = Ok ([Small.image 0.4; Small.image (-0.3)],
        [Small.image 0.25; Small.image 0.1],
        [Small.image 0; Small.image 0], [0%Z; 1%Z])
  /\ supported (prior Small.vae) /\ supported (posterior Small.vae)
  /\ exists elbo logs,
       step Small.batch_norm Small.gini_score
            Small.vae SmallMore.batch2 0 SmallMore.noise2 = Ok (elbo, logs)
       /\ dict_lookup logs "elbo" = Some elbo
       /\ training_step Small.batch_norm Small.gini_score
                        Small.vae SmallMore.batch2 0 SmallMore.noise2 []
          = Ok (elbo,
                [mkLogCall (prefix_keys "train_" logs)
                           (Some true) (Some false)])
       /\ validation_step Small.batch_norm Small.gini_score
                          Small.vae SmallMore.batch2 0 SmallMore.noise2 []
          = Ok (elbo, [mkLogCall (prefix_keys "val_" logs) None None]).
Proof.
  split; [exact small_unpack2|].
  split; [exact small_supported|]. split; [exact small_supported|].
  destruct (training_and_validation_return_elbo
              Small.batch_norm Small.gini_score
              Small.vae SmallMore.batch2 0 SmallMore.noise2 []
              _ _ _ _ small_unpack2 small_supported small_supported)
    as (Fp & Fq & _ & _ & logs & Hstep & Helbo & _ & _ & Ht & Hv).
  eexists _, logs. split; [exact Hstep|]. split; [exact Helbo|].
  split; [exact Ht | exact Hv].
Defined.

Lemma bpd_proportional_to_elbo_witness :
  runnable Small.vae Small.batch
  /\ input_height Small.vae = 1%Z /\ input_height Small.vae = 1%Z
  /\ in_channels Small.vae = 3%Z
  /\ exists elbo logs,
       step Small.batch_norm Small.gini_score
            Small.vae Small.batch 0 Small.noise = Ok (elbo, logs)
       /\ dict_lookup logs "bpd" = Some (elbo / (1 * 1 * 3 * ln 2)).
Proof.
  split; [exact small_runnable|].
  split; [reflexivity|]. split; [reflexivity|]. split; [reflexivity|].
  destruct (bpd_proportional_to_elbo
              Small.batch_norm Small.gini_score
              Small.vae Small.batch 0 Small.noise 1 1 3
              small_runnable eq_refl eq_refl eq_refl)
    as (elbo & logs & Hstep & Hbpd & _).
  exists elbo, logs. split; [exact Hstep | exact Hbpd].
Defined.

Lemma log_pxz_is_cross_view_witness :
  unpack_batch Small.vae Small.batch
  = Ok ([Small.image 0.4], [Small.image 0.25], [Small.image 0], [0%Z])
  /\ supported (prior Small.vae) /\ supported (posterior Small.vae)
  /\ exists z x1_hat p q l,
       forward Small.batch_norm Small.vae [Small.image 0.4]
               (eps_z Small.noise) = Ok (z, x1_hat, p, q)
       /\ step_locals Small.batch_norm Small.gini_score
                      Small.vae Small.batch Small.noise = Ok l
       /\ s_log_pxz l
          = discretized_logistic x1_hat (log_scale Small.vae)
                                 [Small.image 0.25] default_binsize.
Proof.
  split; [reflexivity|].
  split; [exact small_supported|]. split; [exact small_supported|].
  destruct (log_pxz_is_cross_view
              Small.batch_norm Small.gini_score
              Small.vae Small.batch Small.noise
              [Small.image 0.4] [Small.image 0.25] [Small.image 0] [0%Z]
              eq_refl small_supported small_supported)
    as (z & x1_hat & p & q & l & Hf & _ & _ & _ & Hl & Hpxz & _).
  exists z, x1_hat, p, q, l.
  split; [exact Hf|]. split; [exact Hl | exact Hpxz].
Defined.

Lemma marginal_log_px_mixes_batch_witness :
  unpack_batch Small.vae SmallMore.batch2
  = Ok ([Small.image 0.4; Small.image (-0.3)],
        [Small.image 0.25; Small.image 0.1],
        [Small.image 0; Small.image 0], [0%Z; 1%Z])
  /\ supported (prior Small.vae) /\ supported (posterior Small.vae)
  /\ exists weights elbo logs,
       length weights = 2%nat
       /\ step Small.batch_norm Small.gini_score
               Small.vae SmallMore.batch2 0 SmallMore.noise2
          = Ok (elbo, logs)
       /\ dict_lookup logs "marginal_log_px"
          = Some (ln (t_sum (map exp weights)) - ln (INR 2)).
Proof.
  split; [exact small_unpack2|].
  split; [exact small_supported|]. split; [exact small_supported|].
  destruct (marginal_log_px_mixes_batch
              Small.batch_norm Small.gini_score
              Small.vae SmallMore.batch2 0 SmallMore.noise2
              _ _ _ _ small_unpack2 small_supported small_supported)
    as (Fp & Fq & _ & _ & elbo & logs & Hstep & Hmarg).
  eexists _, elbo, logs.
  split; [|split; [exact Hstep | exact Hmarg]].
  reflexivity.
Defined.


(* ================================================================== *)
(** * Further properties *)

(** ** Sums over the image axes *)

Section MoreListFacts.

Variables A A' B B' C D : Type.

Lemma map_map2 (g : C -> D) (f : A -> B -> C) (l1 : list A) (l2 : list B) :
  map g (map2 f l1 l2) = map2 (fun a b => g (f a b)) l1 l2.
Proof.
  revert l2; induction l1 as [|a l1 IH]; intros [|b l2]; simpl; auto.
  rewrite IH; reflexivity.
Qed.

Lemma map2_map_l (f : A' -> B -> C) (g : A -> A') (l1 : list A)
  (l2 : list B) :
  map2 f (map g l1) l2 = map2 (fun a b => f (g a) b) l1 l2.
Proof.
  revert l2; induction l1 as [|a l1 IH]; intros [|b l2]; simpl; auto.
  rewrite IH; reflexivity.
Qed.

Lemma map2_map_r (f : A -> B' -> C) (g : B -> B') (l1 : list A)
  (l2 : list B) :
  map2 f l1 (map g l2) = map2 (fun a b => f a (g b)) l1 l2.
Proof.
  revert l2; induction l1 as [|a l1 IH]; intros [|b l2]; simpl; auto.
  rewrite IH; reflexivity.
Qed.

Lemma map2_swap (f : A -> B -> C) (l1 : list A) (l2 : list B) :
  map2 f l1 l2 = map2 (fun b a => f a b) l2 l1.
Proof.
  revert l2; induction l1 as [|a l1 IH]; intros [|b l2]; simpl; auto.
  rewrite IH; reflexivity.
Qed.

Lemma Forall_map2 (P : A -> Prop) (Q : B -> Prop) (T : C -> Prop)
  (f : A -> B -> C) (l1 : list A) (l2 : list B) :
  (forall a b, P a -> Q b -> T (f a b)) ->
  Forall P l1 -> Forall Q l2 -> Forall T (map2 f l1 l2).
Proof.
  intros Hf H1; revert l2; induction H1 as [|a l1 Ha H1 IH];
    intros l2 H2; [constructor|].
  destruct H2 as [|b l2 Hb H2]; simpl; constructor; auto.
Qed.

(** A sum of [k] terms that are each at most [hi]. *)
Lemma t_sum_map2_le (P : A -> Prop) (Q : B -> Prop) (g : A -> B -> R)
  (hi : R) (l1 : list A) (l2 : list B) (k : nat) :
  (forall a b, P a -> Q b -> g a b <= hi) ->
  length l1 = k -> length l2 = k -> Forall P l1 -> Forall Q l2 ->
  t_sum (map2 g l1 l2) <= INR k * hi.
Proof.
  intros Hg; revert l2 k; induction l1 as [|a l1 IH];
    intros [|b l2] k H1 H2 HP HQ; simpl in *; subst k; try discriminate.
  - simpl; lra.
  - injection H2 as H2.
    inversion HP as [|? ? Pa HP']; inversion HQ as [|? ? Qb HQ']; subst.
    specialize (IH l2 (length l1) eq_refl H2 HP' HQ').
    specialize (Hg a b Pa Qb).
    rewrite S_INR. unfold t_sum in *; simpl. lra.
Qed.

End MoreListFacts.

Lemma sum_dim123_map2 (f : R -> R -> R) (a b : Tensor4) :
  sum_dim123 (t4_map2 f a b) = sum123_map2 f a b.
Proof.
  unfold sum_dim123, t4_map2, sum123_map2.
  rewrite map_map2. apply map2_ext; intros img_a img_b.
  rewrite map_map2. f_equal. apply map2_ext; intros chan_a chan_b.
  rewrite map_map2. reflexivity.
Qed.

Lemma sum123_map2_ext (f g : R -> R -> R) (a b : Tensor4) :
  (forall x y, f x y = g x y) -> sum123_map2 f a b = sum123_map2 g a b.
Proof.
  intros E. unfold sum123_map2.
  apply map2_ext; intros img_a img_b. f_equal.
  apply map2_ext; intros chan_a chan_b. f_equal.
  apply map2_ext; intros row_a row_b. f_equal.
  apply map2_ext; exact E.
Qed.

Lemma sum123_map2_map_l (f : R -> R -> R) (g : R -> R) (a b : Tensor4) :
  sum123_map2 f (t4_map g a) b = sum123_map2 (fun x y => f (g x) y) a b.
Proof.
  unfold sum123_map2, t4_map.
  rewrite map2_map_l. apply map2_ext; intros img_a img_b. f_equal.
  rewrite map2_map_l. apply map2_ext; intros chan_a chan_b. f_equal.
  rewrite map2_map_l. apply map2_ext; intros row_a row_b. f_equal.
  apply map2_map_l.
Qed.

Lemma sum123_map2_map_r (f : R -> R -> R) (g : R -> R) (a b : Tensor4) :
  sum123_map2 f a (t4_map g b) = sum123_map2 (fun x y => f x (g y)) a b.
Proof.
  unfold sum123_map2, t4_map.
  rewrite map2_map_r. apply map2_ext; intros img_a img_b. f_equal.
  rewrite map2_map_r. apply map2_ext; intros chan_a chan_b. f_equal.
  rewrite map2_map_r. apply map2_ext; intros row_a row_b. f_equal.
  apply map2_map_r.
Qed.

Lemma sum123_map2_swap (f : R -> R -> R) (a b : Tensor4) :
  sum123_map2 f a b = sum123_map2 (fun y x => f x y) b a.
Proof.
  unfold sum123_map2.
  rewrite map2_swap. apply map2_ext; intros img_b img_a. f_equal.
  rewrite map2_swap. apply map2_ext; intros chan_b chan_a. f_equal.
  rewrite map2_swap. apply map2_ext; intros row_b row_a. f_equal.
  apply map2_swap.
Qed.

(** On two tensors of shape (n, c, h, w), every entry of the summed
    operation is a sum of [c * h * w] terms. *)
Lemma sum123_map2_le (f : R -> R -> R) (hi : R) (a b : Tensor4)
  (n c h w : nat) :
  (forall x y, f x y <= hi) ->
  has_shape4 n c h w a -> has_shape4 n c h w b ->
  Forall (fun v => v <= INR (c * h * w) * hi) (sum123_map2 f a b).
Proof.
  intros Hf [_ Ha] [_ Hb]. unfold sum123_map2.
  eapply Forall_map2; [|exact Ha|exact Hb].
  intros img_a img_b [Hca Hia] [Hcb Hib]; cbv beta.
  rewrite !mult_INR, !Rmult_assoc.
  eapply t_sum_map2_le; [|exact Hca|exact Hcb|exact Hia|exact Hib].
  intros chan_a chan_b [Hha Hra] [Hhb Hrb]; cbv beta.
  eapply t_sum_map2_le; [|exact Hha|exact Hhb|exact Hra|exact Hrb].
  intros row_a row_b Hwa Hwb; cbv beta.
  eapply (t_sum_map2_le _ _ (fun _ => True) (fun _ => True));
    [intros; apply Hf|exact Hwa|exact Hwb| |];
    apply Forall_forall; intros; exact I.
Qed.

Lemma discretized_logistic_sum123 (mean : Tensor4) (logscale : R)
  (sample : Tensor4) :
  discretized_logistic mean logscale sample default_binsize
  = sum123_map2 (LogisticSpec.pixel logscale) sample mean.
Proof. rewrite discretized_logistic_refines; reflexivity. Qed.

(** ** The likelihood functions *)

Lemma bin_lower_quantize (x : R) :
  LogisticSpec.bin_lower (quantize default_binsize x)
  = LogisticSpec.bin_lower x.
Proof.
  unfold LogisticSpec.bin_lower, quantize, floor, default_binsize.
  replace (x / (1 / 256)) with (x * 256) by field.
  replace (IZR (Zfloor (x * 256)) * (1 / 256) * 256)
    with (IZR (Zfloor (x * 256))) by field.
  rewrite ZfloorZ; reflexivity.
Qed.

(** The likelihood sees the target through its bin only: moving every
    target value to the lower edge of its bin of width 1/256 leaves the
    likelihood as it is. *)
Theorem discretized_logistic_quantized_target
  (mean : Tensor4) (logscale : R) (sample : Tensor4) :
  discretized_logistic mean logscale
                       (t4_map (quantize default_binsize) sample)
                       default_binsize
  = discretized_logistic mean logscale sample default_binsize.
Proof.
  rewrite !discretized_logistic_sum123, sum123_map2_map_l.
  apply sum123_map2_ext; intros x m.
  unfold LogisticSpec.pixel, LogisticSpec.cdf, LogisticSpec.bin_upper.
  rewrite bin_lower_quantize; reflexivity.
Qed.

Lemma clamp_idempotent (lo hi x : R) :
  lo <= hi -> clamp lo hi (clamp lo hi x) = clamp lo hi x.
Proof.
  intros Hle. pose proof (clamp_range lo hi x Hle) as [H1 H2].
  unfold clamp at 1.
  rewrite Rmax_left by exact H1. apply Rmin_left; exact H2.
Qed.

(** A mean beyond [-0.5 + 1/512, 0.5 - 1/512] counts as the nearer end of
    that interval: clamping the mean before the call changes nothing. *)
Theorem discretized_logistic_clamped_mean
  (mean : Tensor4) (logscale : R) (sample : Tensor4) :
  discretized_logistic
    (t4_map (clamp (-0.5 + 1 / 512) (0.5 - 1 / 512)) mean)
    logscale sample default_binsize
  = discretized_logistic mean logscale sample default_binsize.
Proof.
  rewrite !discretized_logistic_sum123, sum123_map2_map_r.
  apply sum123_map2_ext; intros x m.
  unfold LogisticSpec.pixel, LogisticSpec.cdf, LogisticSpec.clamped_mean.
  rewrite clamp_idempotent by lra. reflexivity.
Qed.

Lemma gaussian_likelihood_sum123 (mean : Tensor4) (logscale : R)
  (sample : Tensor4) :
  gaussian_likelihood mean logscale sample
  = sum123_map2 (fun m x => log_prob_entry Normal m (exp logscale) x)
                mean sample.
Proof. unfold gaussian_likelihood. apply sum_dim123_map2. Qed.

(** The Gaussian likelihood treats the mean and the target alike. *)
Theorem gaussian_likelihood_symmetric
  (mean : Tensor4) (logscale : R) (sample : Tensor4) :
  gaussian_likelihood mean logscale sample
  = gaussian_likelihood sample logscale mean.
Proof.
  rewrite !gaussian_likelihood_sum123, sum123_map2_swap.
  apply sum123_map2_ext; intros x m. unfold log_prob_entry.
  replace ((x - m) ^ 2) with ((m - x) ^ 2) by ring. reflexivity.
Qed.

(** The Gaussian likelihood of an image of [c * h * w] pixels is at most
    [c * h * w] times the log-density at the mean,
    [- log_scale - log (sqrt (2 pi))]. *)
Theorem gaussian_likelihood_upper_bound
  (mean : Tensor4) (logscale : R) (sample : Tensor4) (n c h w : nat) :
  has_shape4 n c h w mean ->
  has_shape4 n c h w sample ->
  Forall (fun v => v <= INR (c * h * w)
                        * (- logscale - ln (sqrt (2 * PI))))
         (gaussian_likelihood mean logscale sample).
Proof.
  intros Hm Hs. rewrite gaussian_likelihood_sum123.
  apply (sum123_map2_le _ _ mean sample n c h w); [|exact Hm|exact Hs].
  intros m x. unfold log_prob_entry. rewrite ln_exp.
  assert (Hs2 : 0 < 2 * exp logscale ^ 2)
    by (pose proof (exp_pos logscale); nra).
  assert (0 <= (x - m) ^ 2 / (2 * exp logscale ^ 2)).
  { apply Rmult_le_pos;
      [apply pow2_ge_0 | left; apply Rinv_0_lt_compat; exact Hs2]. }
  replace (- (x - m) ^ 2 / (2 * exp logscale ^ 2))
    with (- ((x - m) ^ 2 / (2 * exp logscale ^ 2)))
    by (unfold Rdiv; ring).
  lra.
Qed.

(** ** The distributions and the Monte-Carlo KL term *)

Lemma distributions_family (name : string)
  (mk : Tensor2 -> Tensor2 -> Distribution) :
  dict_get distributions name = Ok mk -> exists F, mk = mkDistribution F.
Proof.
  unfold dict_get, distributions; cbn [dict_lookup].
  destruct (String.eqb "laplace" name);
    [intros H; injection H as <-; eauto|].
  destruct (String.eqb "normal" name);
    [intros H; injection H as <-; eauto | discriminate].
Qed.

Lemma imap_from_const (A B : Type) (g : A -> B) (i : nat) (l : list A) :
  imap_from (fun _ a => g a) i l = map g l.
Proof.
  revert i; induction l as [|a l IH]; intros i; simpl; [|rewrite IH];
    reflexivity.
Qed.

Lemma map_fst_combine (A B : Type) (l1 : list A) (l2 : list B) :
  length l1 = length l2 -> map fst (combine l1 l2) = l1.
Proof.
  revert l2; induction l1 as [|a l1 IH]; intros [|b l2]; simpl;
    try discriminate; [reflexivity|].
  intros H; injection H as H. rewrite (IH l2 H); reflexivity.
Qed.

Lemma rsample_entry_zero (f : Family) (l s : R) : rsample_entry f l s 0 = l.
Proof.
  destruct f; simpl; [|lra].
  unfold sgn.
  destruct (Rlt_dec 0 0) as [H|_]; [lra|].
  destruct (Rlt_dec 0 0) as [H|_]; [lra|]. lra.
Qed.

Lemma rsample_rows_zero (f : Family) (L S : Tensor2) (i : nat) :
  map (@length R) L = map (@length R) S ->
  imap_from
    (fun (n : nat) (ls : Tensor1 * Tensor1) =>
       imap (fun (j : nat) (l_s : R * R) =>
               rsample_entry f (fst l_s) (snd l_s) 0)
            (combine (fst ls) (snd ls)))
    i (combine L S)
  = L.
Proof.
  revert S i; induction L as [|r L IH]; intros [|r' S] i; simpl;
    try discriminate; [reflexivity|].
  intros H; injection H as Hr Hrest.
  rewrite (IH S (Datatypes.S i) Hrest).
  apply (f_equal (fun h => h :: L)).
  unfold imap.
  rewrite (imap_from_const _ _ (fun l_s => rsample_entry f (fst l_s)
                                             (snd l_s) 0)).
  rewrite (map_ext _ fst) by (intros [l s]; apply rsample_entry_zero).
  apply map_fst_combine; exact Hr.
Qed.

Lemma rsample_zero_noise (d : Distribution) :
  same_shape2 (loc d) (scale d) ->
  rsample d (fun _ _ => 0) = loc d.
Proof. intros H; apply rsample_rows_zero; exact H. Qed.

Lemma rsample_length (d : Distribution) (eps : nat -> nat -> R) :
  length (rsample d eps) = Nat.min (length (loc d)) (length (scale d)).
Proof. unfold rsample. rewrite imap_length. apply length_combine. Qed.

Lemma log_prob_length (d : Distribution) (value : Tensor2) :
  length (log_prob d value)
  = Nat.min (Nat.min (length (loc d)) (length (scale d))) (length value).
Proof. unfold log_prob. rewrite map2_length, length_combine. reflexivity. Qed.

Lemma fold_add_length (n : nat) (ts : Tensor3) (t0 : Tensor2) :
  length t0 = n -> Forall (fun t => length t = n) ts ->
  length (fold_left (t2_map2 Rplus) ts t0) = n.
Proof.
  revert t0; induction ts as [|t ts IH]; intros t0 H0 Hts; simpl;
    [exact H0|].
  inversion Hts as [|? ? Ht Hts']; subst.
  apply IH; [|exact Hts'].
  unfold t2_map2. rewrite map2_length.
  unfold Tensor2, Tensor1 in *. lia.
Qed.

(** From one sample on, the Monte-Carlo KL term of two distributions over
    [n] batch elements has exactly one entry per batch element. *)
Theorem kl_divergence_mc_length
  (p q : Distribution) (num_samples : nat)
  (eps : nat -> nat -> nat -> R) (n : nat) :
  length (loc p) = n -> length (scale p) = n ->
  length (loc q) = n -> length (scale q) = n ->
  (1 <= num_samples)%nat ->
  length (kl_divergence_mc p q num_samples eps) = n.
Proof.
  intros Hlp Hsp Hlq Hsq Hn.
  unfold kl_divergence_mc, sum_last, log_prob3, rsample_n.
  rewrite length_map.
  change (t3_map2 Rminus) with (map2 (t2_map2 Rminus)).
  rewrite map2_map_l, map2_map_r, map2_diag, map_map.
  set (D := fun s : nat =>
              t2_map2 Rminus (log_prob p (rsample p (eps s)))
                             (log_prob q (rsample p (eps s)))).
  assert (HD : forall s, length (D s) = n).
  { intros s. unfold D, t2_map2.
    rewrite map2_length, !log_prob_length, rsample_length.
    unfold Tensor2, Tensor1 in *. lia. }
  destruct num_samples as [|k]; [lia|].
  cbn [seq map mean_dim0]. unfold t2_map. rewrite length_map.
  apply fold_add_length; [apply HD|].
  apply Forall_forall; intros t Hin.
  apply in_map_iff in Hin as (s & <- & _). apply HD.
Qed.

Lemma kl_divergence_mc_same (d : Distribution) (num_samples : nat)
  (eps : nat -> nat -> nat -> R) :
  same_shape2 (loc d) (scale d) ->
  (1 <= num_samples)%nat ->
  kl_divergence_mc d d num_samples eps = repeat 0 (length (loc d)).
Proof.
  intros Hd Hn.
  unfold kl_divergence_mc, log_prob3, rsample_n.
  rewrite map_map.
  change (t3_map2 Rminus) with (map2 (t2_map2 Rminus)).
  rewrite map2_diag, map_map.
  rewrite (map_ext _ (fun _ => zeros_like (loc d))).
  2:{ intros s. rewrite t2_sub_diag. apply zeros_like_shape.
      apply (log_prob_shape d); [exact Hd|].
      apply rsample_shape; exact Hd. }
  destruct num_samples as [|k]; [lia|].
  cbn [seq map mean_dim0].
  rewrite fold_add_zeros, t2_scale_zeros.
  apply sum_last_zeros.
Qed.

(** ** The latent sampler *)

Lemma sample_Ok_inv (m : VAE) (mu log_var : Tensor2)
  (eps : nat -> nat -> R) (p q : Distribution) (z : Tensor2) :
  sample m mu log_var eps = Ok (p, q, z) ->
  exists Fp Fq,
    dict_get distributions (prior m) = Ok (mkDistribution Fp)
    /\ dict_get distributions (posterior m) = Ok (mkDistribution Fq)
    /\ p = mkDistribution Fp (zeros_like mu)
                          (ones_like (t2_map (fun v => exp (v / 2)) log_var))
    /\ q = mkDistribution Fq mu (t2_map (fun v => exp (v / 2)) log_var)
    /\ z = rsample q eps.
Proof.
  unfold sample; intros H.
  apply bind_Ok_inv in H as (mk_p & Hp & H).
  apply bind_Ok_inv in H as (mk_q & Hq & H).
  destruct (distributions_family _ _ Hp) as [Fp ->].
  destruct (distributions_family _ _ Hq) as [Fq ->].
  injection H as <- <- <-.
  exists Fp, Fq. repeat split; assumption.
Qed.

Lemma t2_map_shape (f : R -> R) (t : Tensor2) : same_shape2 (t2_map f t) t.
Proof.
  unfold same_shape2, t2_map. rewrite map_map.
  apply map_ext; intros r. apply length_map.
Qed.

Lemma all_entries_t2_map (P : R -> Prop) (f : R -> R) (t : Tensor2) :
  (forall v, P (f v)) -> all_entries P (t2_map f t).
Proof.
  intros Hf. unfold all_entries, t2_map.
  apply Forall_map, Forall_forall; intros r _.
  apply Forall_map, Forall_forall; intros v _. apply Hf.
Qed.

(** What [sample] hands back, whenever it returns: a prior with location 0
    and scale 1 everywhere, of the shape of the mean; a posterior whose
    location is the mean and whose scale is positive everywhere, with
    [log (scale ^ 2)] the given log-variance; and [z], the draw from the
    posterior. *)
Theorem sample_invariants (m : VAE) (mu log_var : Tensor2)
  (eps : nat -> nat -> R) (p q : Distribution) (z : Tensor2) :
  sample m mu log_var eps = Ok (p, q, z) ->
  all_entries (fun v => v = 0) (loc p)
  /\ all_entries (fun v => v = 1) (scale p)
  /\ same_shape2 (loc p) mu
  /\ same_shape2 (scale p) log_var
  /\ loc q = mu
  /\ all_entries (fun s => 0 < s) (scale q)
  /\ t2_map (fun s => ln (s ^ 2)) (scale q) = log_var
  /\ z = rsample q eps.
Proof.
  intros H.
  apply sample_Ok_inv in H as (Fp & Fq & _ & _ & -> & -> & ->).
  cbn [loc scale].
  split; [apply all_entries_t2_map; reflexivity|].
  split; [apply all_entries_t2_map; reflexivity|].
  split; [apply t2_map_shape|].
  split.
  { unfold same_shape2, ones_like.
    rewrite (t2_map_shape _ (t2_map _ log_var)). apply t2_map_shape. }
  split; [reflexivity|].
  split; [apply all_entries_t2_map; intros v; apply exp_pos|].
  split; [|reflexivity].
  unfold t2_map. rewrite map_map.
  rewrite <- (map_id log_var) at 2. apply map_ext; intros r.
  rewrite map_map. rewrite <- (map_id r) at 2. apply map_ext; intros v.
  replace (exp (v / 2) ^ 2) with (exp (v / 2) * exp (v / 2)) by ring.
  rewrite <- exp_plus, ln_exp. lra.
Qed.

(** With every standard draw equal to zero, the latent sample is the mean
    itself, for either posterior family: the reparameterized draw is the
    mean plus a multiple of the noise. *)
Theorem sample_zero_noise_is_mean (m : VAE) (mu log_var : Tensor2)
  (p q : Distribution) (z : Tensor2) :
  sample m mu log_var (fun _ _ => 0) = Ok (p, q, z) ->
  same_shape2 mu log_var ->
  z = mu.
Proof.
  intros H Hshape.
  apply sample_Ok_inv in H as (Fp & Fq & _ & _ & _ & -> & ->).
  apply (rsample_zero_noise
           (mkDistribution Fq mu (t2_map (fun v => exp (v / 2)) log_var))).
  cbn [loc scale]. unfold same_shape2.
  rewrite (t2_map_shape _ log_var). exact Hshape.
Qed.

Lemma all_zero_zeros_like (t : Tensor2) :
  all_entries (fun v => v = 0) t -> t = zeros_like t.
Proof.
  unfold all_entries, zeros_like, t2_map; intros H.
  rewrite <- (map_id t) at 1. apply map_ext_Forall.
  eapply Forall_impl; [|exact H]. intros r Hr; cbv beta.
  rewrite <- (map_id r) at 1. apply map_ext_Forall.
  eapply Forall_impl; [|exact Hr]. intros v Hv; exact Hv.
Qed.

(** At the prior the KL term of a step vanishes: when prior and posterior
    name the same family and the heads give mean 0 and log-variance 0
    everywhere, the distributions [sample] returns have a Monte-Carlo KL
    term of exactly zero for every batch element, whatever is drawn. *)
Theorem kl_zero_at_prior (m : VAE) (mu log_var : Tensor2)
  (eps : nat -> nat -> R) (p q : Distribution) (z : Tensor2)
  (num_samples : nat) (eps_kl : nat -> nat -> nat -> R) :
  sample m mu log_var eps = Ok (p, q, z) ->
  prior m = posterior m ->
  same_shape2 mu log_var ->
  all_entries (fun v => v = 0) mu ->
  all_entries (fun v => v = 0) log_var ->
  (1 <= num_samples)%nat ->
  kl_divergence_mc p q num_samples eps_kl = repeat 0 (length mu).
Proof.
  intros H Hsame Hshape Hmu Hvar Hn.
  apply sample_Ok_inv in H as (Fp & Fq & HFp & HFq & -> & -> & _).
  rewrite Hsame, HFq in HFp. injection HFp as <-.
  set (std := t2_map (fun v => exp (v / 2)) log_var).
  assert (Hstd : std = ones_like std).
  { unfold std, ones_like, t2_map. rewrite map_map.
    apply map_ext_Forall. eapply Forall_impl; [|exact Hvar].
    intros r Hr; cbv beta. rewrite map_map.
    apply map_ext_Forall. eapply Forall_impl; [|exact Hr].
    intros v ->; cbv beta. replace (0 / 2) with 0 by lra. apply exp_0. }
  rewrite Hstd at 2. rewrite (all_zero_zeros_like mu Hmu) at 2.
  rewrite kl_divergence_mc_same; [|cbn [loc scale]|exact Hn].
  - cbn [loc]. unfold zeros_like, t2_map. rewrite length_map. reflexivity.
  - unfold same_shape2, zeros_like, ones_like, std.
    rewrite (t2_map_shape _ mu), (t2_map_shape _ (t2_map _ log_var)),
      (t2_map_shape _ log_var).
    exact Hshape.
Qed.

(** ** The projection heads *)

Lemma tabulate_length (A : Type) (n : nat) (f : nat -> A) :
  length (tabulate n f) = n.
Proof. unfold tabulate. rewrite length_map. apply length_seq. Qed.

Lemma linear_forward_width (W : Tensor2) (b : option Tensor1) (x : Tensor2)
  (o : nat) :
  length W = o ->
  match b with Some b => length b = o | None => True end ->
  has_width o (linear_forward W b x).
Proof.
  intros HW Hb. unfold has_width, linear_forward.
  apply Forall_map, Forall_forall; intros row _.
  destruct b as [b|]; unfold matvec.
  - rewrite map2_length, length_map, HW, Hb. apply Nat.min_id.
  - rewrite length_map. exact HW.
Qed.

Lemma Projection_width (batch_norm : nat -> Tensor2 -> Tensor2)
  (input_dim : nat) (hidden_dim : Z) (output_dim : nat)
  (init1 init2 : LinearInit) (x : Tensor2) :
  has_width output_dim
    (Projection_forward batch_norm
       (Projection_init input_dim hidden_dim output_dim init1 init2) x).
Proof.
  unfold Projection_forward, Projection_init; cbn [model].
  destruct (hidden_dim >? 0)%Z; cbn [Model_forward fold_left Layer_forward
                                      nn_Linear];
    apply linear_forward_width; try apply tabulate_length; exact I.
Qed.

(** In either configuration, whatever the hidden width, every output row
    of a projection head has [output_dim] entries. *)
Theorem projection_output_width (batch_norm : nat -> Tensor2 -> Tensor2)
  (input_dim : nat) (hidden_dim : Z) (output_dim : nat)
  (init1 init2 : LinearInit) (x : Tensor2) :
  has_width output_dim
    (Projection_forward batch_norm
       (Projection_init input_dim hidden_dim output_dim init1 init2) x).
Proof. apply Projection_width. Qed.

Lemma dot_zero_l (r w : Tensor1) :
  Forall (fun v => v = 0) r -> dot r w = 0.
Proof.
  unfold dot, t_sum. intros H; revert w.
  induction H as [|v r Hv H IH]; intros [|w0 w]; simpl; try reflexivity.
  rewrite IH, Hv. lra.
Qed.

(** The last layer of the non-linear head has no bias: when batch
    normalization leaves no positive entry, the ReLU cuts everything off and
    the head outputs exactly zero. *)
Theorem nonlinear_head_dead_relu (batch_norm : nat -> Tensor2 -> Tensor2)
  (input_dim : nat) (hidden_dim : Z) (output_dim : nat)
  (init1 init2 : LinearInit) (x : Tensor2) :
  (0 < hidden_dim)%Z ->
  all_entries (fun v => v <= 0)
    (batch_norm (Z.to_nat hidden_dim)
       (Layer_forward batch_norm
          (nn_Linear input_dim (Z.to_nat hidden_dim) true init1) x)) ->
  all_entries (fun v => v = 0)
    (Projection_forward batch_norm
       (Projection_init input_dim hidden_dim output_dim init1 init2) x).
Proof.
  intros Hh Hneg.
  unfold Projection_forward, Projection_init; cbn [model].
  replace (hidden_dim >? 0)%Z with true
    by (symmetry; apply Z.gtb_lt; exact Hh).
  cbn [Model_forward fold_left].
  set (Y := Layer_forward batch_norm (BatchNorm1d (Z.to_nat hidden_dim)) _).
  change (all_entries (fun v => v <= 0) Y) in Hneg.
  cbn [Layer_forward nn_Linear]. unfold linear_forward, t2_map, all_entries.
  rewrite map_map. apply Forall_map.
  eapply Forall_impl; [|exact Hneg]. intros r Hr; cbv beta.
  unfold matvec. apply Forall_map, Forall_forall; intros w _.
  apply dot_zero_l. apply Forall_map.
  eapply Forall_impl; [|exact Hr]. intros v Hv; cbv beta.
  apply Rmax_left; exact Hv.
Qed.

(** ** Construction, optimizer and step *)

Lemma dict_get_Ok_key (V : Type) (d : dict V) (k : string) (v : V) :
  dict_get d k = Ok v -> In k (dict_keys d).
Proof.
  unfold dict_get, dict_keys.
  induction d as [|[k' v'] d IH]; simpl; [discriminate|].
  destruct (String.eqb_spec k' k) as [->|Hne]; [left; reflexivity|].
  intros H; right; apply IH; exact H.
Qed.

Lemma dict_get_missing (V : Type) (d : dict V) (k : string) :
  ~ In k (dict_keys d) -> dict_get d k = Raise (KeyError k).
Proof.
  intros Hk. destruct (dict_get d k) as [v|e] eqn:E.
  - exfalso; apply Hk; apply (dict_get_Ok_key _ _ _ _ E).
  - unfold dict_get in *. destruct (dict_lookup d k); [discriminate|].
    symmetry; exact E.
Qed.

Lemma rsample_rows_width (f : Family) (eps : nat -> nat -> R)
  (L S : Tensor2) (i k : nat) :
  has_width k L -> has_width k S ->
  has_width k
    (imap_from
       (fun (n : nat) (ls : Tensor1 * Tensor1) =>
          imap (fun (j : nat) (l_s : R * R) =>
                  rsample_entry f (fst l_s) (snd l_s) (eps n j))
               (combine (fst ls) (snd ls)))
       i (combine L S)).
Proof.
  unfold has_width. intros HL; revert S i.
  induction HL as [|r L Hr HL IH]; intros S i HS; [constructor|].
  destruct HS as [|r' S Hr' HS]; simpl; constructor.
  - rewrite imap_length, length_combine, Hr, Hr'. apply Nat.min_id.
  - apply IH; exact HS.
Qed.

Lemma rsample_width (d : Distribution) (eps : nat -> nat -> R) (k : nat) :
  has_width k (loc d) -> has_width k (scale d) ->
  has_width k (rsample d eps).
Proof. intros HL HS. apply rsample_rows_width; assumption. Qed.

Section MoreConstruction.

Variable resnet18_encoder resnet50_encoder : bool -> bool -> Encoder.
Variable resnet18_decoder resnet50_decoder :
  nat -> Z -> bool -> bool -> Decoder.
Variable batch_norm : nat -> Tensor2 -> Tensor2.
Variable gini_score : Tensor2 -> Tensor1.

(** What a constructed model holds. *)
Lemma VAE_init_inv (hp : HParams) (init : HeadsInit) (m : VAE) :
  VAE_init resnet18_encoder resnet50_encoder
           resnet18_decoder resnet50_decoder hp init = Ok m ->
  exists h : Z,
    (h = if String.eqb (hp_projection hp) "linear" then 0 else 2048)%Z
    /\ fc_mu m = Projection_init (out_dim (encoder m)) h (hp_latent_dim hp)
                                 (mu_init1 init) (mu_init2 init)
    /\ fc_var m = Projection_init (out_dim (encoder m)) h (hp_latent_dim hp)
                                  (var_init1 init) (var_init2 init)
    /\ lr m = hp_lr hp /\ scheduler m = hp_scheduler hp
    /\ max_epochs m = hp_max_epochs hp.
Proof.
  unfold VAE_init; intros H.
  apply bind_Ok_inv in H as (mk_e & _ & H).
  apply bind_Ok_inv in H as (mk_d & _ & H).
  injection H as <-. cbn.
  exists (if String.eqb (hp_projection hp) "linear" then 0 else 2048)%Z.
  destruct (String.eqb (hp_projection hp) "linear"); repeat split.
Qed.

(** An unknown backbone name makes construction raise [KeyError] with that
    name: the encoder's if it is unknown, whatever the decoder's name is,
    and the decoder's if only that one is unknown. *)
Theorem VAE_init_unknown_backbone (hp : HParams) (init : HeadsInit) :
  (~ In (hp_encoder hp)
        (dict_keys (encoders resnet18_encoder resnet50_encoder)) ->
   VAE_init resnet18_encoder resnet50_encoder
            resnet18_decoder resnet50_decoder hp init
   = Raise (KeyError (hp_encoder hp)))
  /\ (In (hp_encoder hp)
         (dict_keys (encoders resnet18_encoder resnet50_encoder)) ->
      ~ In (hp_decoder hp)
           (dict_keys (decoders resnet18_decoder resnet50_decoder)) ->
      VAE_init resnet18_encoder resnet50_encoder
               resnet18_decoder resnet50_decoder hp init
      = Raise (KeyError (hp_decoder hp))).
Proof.
  split.
  - intros He. unfold VAE_init.
    rewrite (dict_get_missing _ _ _ He); reflexivity.
  - intros He Hd. unfold VAE_init.
    destruct (dict_get_key _ _ _ He) as [mk_e ->]; cbn [bind].
    rewrite (dict_get_missing _ _ _ Hd); reflexivity.
Qed.

(** The latent sample of a constructed model has [latent_dim] columns, in
    the linear and in the non-linear configuration, and so have the
    location and the scale of its posterior. *)
Theorem latent_sample_width (hp : HParams) (init : HeadsInit) (m : VAE)
  (x : Tensor4) (eps : nat -> nat -> R)
  (z : Tensor2) (x_hat : Tensor4) (p q : Distribution) :
  VAE_init resnet18_encoder resnet50_encoder
           resnet18_decoder resnet50_decoder hp init = Ok m ->
  forward batch_norm m x eps = Ok (z, x_hat, p, q) ->
  has_width (hp_latent_dim hp) z
  /\ has_width (hp_latent_dim hp) (loc q)
  /\ has_width (hp_latent_dim hp) (scale q)
  /\ x_hat = decoder m z.
Proof.
  intros Hinit Hf.
  destruct (VAE_init_inv hp init m Hinit) as (h & _ & Hmu & Hvar & _).
  unfold forward in Hf.
  apply bind_Ok_inv in Hf as ([[p' q'] z'] & Hs & Hf).
  injection Hf as <- <- <- <-.
  apply sample_Ok_inv in Hs as (Fp & Fq & _ & _ & _ & -> & ->).
  cbn [loc scale].
  assert (Hwmu : has_width (hp_latent_dim hp)
                   (Projection_forward batch_norm (fc_mu m)
                      (enc_forward (encoder m) x)))
    by (rewrite Hmu; apply Projection_width).
  assert (Hwstd : has_width (hp_latent_dim hp)
                    (t2_map (fun v => exp (v / 2))
                       (Projection_forward batch_norm (fc_var m)
                          (enc_forward (encoder m) x)))).
  { unfold has_width, t2_map. apply Forall_map.
    eapply Forall_impl; [|rewrite Hvar; apply Projection_width].
    intros r Hr; cbv beta. rewrite length_map; exact Hr. }
  split; [apply rsample_width; assumption|].
  split; [exact Hwmu|]. split; [exact Hwstd | reflexivity].
Qed.

(** The KL coefficient is recorded and nothing more: two constructions
    that differ in [kl_coeff] alone fail alike or give models with the same
    step result on every batch and the same optimizer configuration. *)
Theorem kl_coeff_is_unused (hp : HParams) (init : HeadsInit) (k : R) :
  match VAE_init resnet18_encoder resnet50_encoder
                 resnet18_decoder resnet50_decoder hp init,
        VAE_init resnet18_encoder resnet50_encoder
                 resnet18_decoder resnet50_decoder (with_kl_coeff k hp) init
  with
  | Ok m, Ok m' =>
      (forall batch idx noise,
          step batch_norm gini_score m batch idx noise
          = step batch_norm gini_score m' batch idx noise)
      /\ configure_optimizers m = configure_optimizers m'
  | Raise e, Raise e' => e = e'
  | _, _ => False
  end.
Proof.
  unfold VAE_init, with_kl_coeff; cbn [hp_encoder hp_decoder].
  destruct (dict_get (encoders resnet18_encoder resnet50_encoder)
                     (hp_encoder hp)) as [mk_e|e]; cbn [bind];
    [|reflexivity].
  destruct (dict_get (decoders resnet18_decoder resnet50_decoder)
                     (hp_decoder hp)) as [mk_d|e]; cbn [bind];
    [|reflexivity].
  split; [intros batch idx noise|]; reflexivity.
Qed.

(** The optimizer of a constructed model is Adamax at the learning rate
    given to the constructor; with the scheduler flag it comes with one
    warm-up-cosine scheduler over that same optimizer, with 10 warm-up
    epochs and the constructor's number of epochs, and without the flag it
    comes alone. *)
Theorem configure_optimizers_of_init (hp : HParams) (init : HeadsInit)
  (m : VAE) :
  VAE_init resnet18_encoder resnet50_encoder
           resnet18_decoder resnet50_decoder hp init = Ok m ->
  configure_optimizers m
  = if hp_scheduler hp then
      WithSchedulers
        [mkAdamax (hp_lr hp)]
        [mkLinearWarmupCosineAnnealingLR (mkAdamax (hp_lr hp)) 10
                                         (hp_max_epochs hp) 0 1e-6]
    else OptimizerOnly (mkAdamax (hp_lr hp)).
Proof.
  intros H.
  destruct (VAE_init_inv hp init m H) as (h & _ & _ & _ & Hlr & Hs & He).
  unfold configure_optimizers. rewrite Hlr, Hs, He. reflexivity.
Qed.

End MoreConstruction.

Lemma dict_get_Ok_supported (name : string)
  (mk : Tensor2 -> Tensor2 -> Distribution) :
  dict_get distributions name = Ok mk -> supported name.
Proof.
  unfold dict_get, supported.
  destruct (dict_lookup distributions name); [discriminate | discriminate].
Qed.

Lemma t_sum_map2_minus (a b : Tensor1) :
  length a = length b ->
  t_sum (map2 Rminus a b) = t_sum a - t_sum b.
Proof.
  unfold t_sum. revert b; induction a as [|x a IH]; intros [|y b]; simpl;
    try discriminate; [lra|].
  intros H; injection H as H. rewrite (IH b H). lra.
Qed.

Lemma t_mean_minus (a b : Tensor1) :
  length a = length b ->
  t_mean (t1_map2 Rminus a b) = t_mean a - t_mean b.
Proof.
  intros H. unfold t_mean, t1_map2.
  rewrite map2_length, t_sum_map2_minus, <- H, Nat.min_id by exact H.
  unfold Rdiv; ring.
Qed.

Lemma t_sum_exp_repeat (w : R) (n : nat) :
  t_sum (map exp (repeat w n)) = INR n * exp w.
Proof.
  unfold t_sum. induction n as [|n IH]; [simpl; lra|].
  rewrite S_INR. cbn [repeat map fold_right]. rewrite IH. lra.
Qed.

Lemma ln_2_pos : 0 < ln 2.
Proof. rewrite <- ln_1. apply ln_increasing; lra. Qed.

Section MoreStepFacts.

Variable batch_norm : nat -> Tensor2 -> Tensor2.
Variable gini_score : Tensor2 -> Tensor1.

(** A step returns only on a batch of the layout the model unpacks and
    with both family names among the keys of the registry. *)
Theorem step_returns_only_if_runnable
  (m : VAE) (batch : Batch) (idx : nat) (noise : Noise)
  (elbo : R) (logs : dict R) :
  step batch_norm gini_score m batch idx noise = Ok (elbo, logs) ->
  layout_matches m batch = true
  /\ supported (prior m) /\ supported (posterior m).
Proof.
  intros H.
  apply step_Ok_inv in H as (l & Hl & _).
  pose proof (step_locals_inv _ _ _ _ _ _ Hl) as ((x3 & y & Hb) & Hf & _).
  unfold forward in Hf.
  apply bind_Ok_inv in Hf as ([[p q] z] & Hs & _).
  apply sample_Ok_inv in Hs as (Fp & Fq & HFp & HFq & _).
  split.
  - unfold unpack_batch in Hb. unfold layout_matches.
    destruct (unlabeled_batch m), batch; try discriminate; reflexivity.
  - split; eapply dict_get_Ok_supported; eassumption.
Qed.

(** A batch of the other layout makes the step raise [ValueError] from the
    unpacking, before any family name is looked up, and the training and
    validation steps raise the same without logging. *)
Theorem step_wrong_layout
  (m : VAE) (batch : Batch) (idx : nat) (noise : Noise) (lg : Logger) :
  layout_matches m batch = false ->
  exists msg,
    step batch_norm gini_score m batch idx noise = Raise (ValueError msg)
    /\ training_step batch_norm gini_score m batch idx noise lg
       = Raise (ValueError msg)
    /\ validation_step batch_norm gini_score m batch idx noise lg
       = Raise (ValueError msg).
Proof.
  unfold layout_matches, training_step, validation_step, step, step_locals,
    unpack_batch.
  destruct (unlabeled_batch m), batch; try discriminate; intros _;
    eexists; repeat split; reflexivity.
Qed.

(** The step reads the first two views of the batch it unpacks and nothing
    else of it: not the third view, not the labels, not the batch index
    and not the second component of a mixed batch. *)
Theorem step_ignores_rest_of_batch
  (m : VAE) (x1 x2 x3 x3' : Tensor4) (y y' : list Z) (b1 b1' : Labelled)
  (idx idx' : nat) (noise : Noise) :
  step batch_norm gini_score m (Plain (x1, x2, x3, y)) idx noise
  = step batch_norm gini_score m (Plain (x1, x2, x3', y')) idx' noise
  /\ step batch_norm gini_score m (Mixed (x1, x2, x3, y) b1) idx noise
     = step batch_norm gini_score m (Mixed (x1, x2, x3', y') b1') idx' noise.
Proof.
  unfold step, step_locals, unpack_batch.
  destruct (unlabeled_batch m); split; reflexivity.
Qed.

(** A training step that returns has added exactly one [log_dict] call,
    flagged per step and not per epoch, with the six metrics under the
    prefix "train_"; its "train_elbo" entry is the returned loss. *)
Theorem training_step_logs
  (m : VAE) (batch : Batch) (idx : nat) (noise : Noise) (lg lg' : Logger)
  (loss : R) :
  training_step batch_norm gini_score m batch idx noise lg = Ok (loss, lg') ->
  exists call,
    lg' = (lg ++ [call])%list
    /\ dict_keys (entries call)
       = ["train_kl"; "train_elbo"; "train_gini"; "train_bpd";
          "train_log_pxz"; "train_marginal_log_px"]
    /\ dict_lookup (entries call) "train_elbo" = Some loss
    /\ on_step call = Some true /\ on_epoch call = Some false.
Proof.
  unfold training_step; intros H.
  apply bind_Ok_inv in H as ([elbo logs] & Hstep & H).
  apply step_Ok_inv in Hstep as (l & _ & -> & ->).
  injection H as <- <-.
  eexists; split; [reflexivity|]. repeat split.
Qed.

(** A validation step that returns has added exactly one [log_dict] call,
    with the default flags, with the six metrics under the prefix "val_";
    its "val_elbo" entry is the returned loss. *)
Theorem validation_step_logs
  (m : VAE) (batch : Batch) (idx : nat) (noise : Noise) (lg lg' : Logger)
  (loss : R) :
  validation_step batch_norm gini_score m batch idx noise lg
  = Ok (loss, lg') ->
  exists call,
    lg' = (lg ++ [call])%list
    /\ dict_keys (entries call)
       = ["val_kl"; "val_elbo"; "val_gini"; "val_bpd";
          "val_log_pxz"; "val_marginal_log_px"]
    /\ dict_lookup (entries call) "val_elbo" = Some loss
    /\ on_step call = None /\ on_epoch call = None.
Proof.
  unfold validation_step; intros H.
  apply bind_Ok_inv in H as ([elbo logs] & Hstep & H).
  apply step_Ok_inv in Hstep as (l & _ & -> & ->).
  injection H as <- <-.
  eexists; split; [reflexivity|]. repeat split.
Qed.

(** When the KL term and the reconstruction term have one entry per batch
    element each, the logged metrics satisfy elbo = kl - log_pxz. *)
Theorem logged_elbo_is_kl_minus_log_pxz
  (m : VAE) (batch : Batch) (noise : Noise) (l : StepLocals) :
  step_locals batch_norm gini_score m batch noise = Ok l ->
  length (s_kl l) = length (s_log_pxz l) ->
  exists kl log_pxz,
    dict_lookup (step_logs l) "kl" = Some kl
    /\ dict_lookup (step_logs l) "log_pxz" = Some log_pxz
    /\ dict_lookup (step_logs l) "elbo" = Some (kl - log_pxz).
Proof.
  intros Hl Hlen.
  pose proof (step_locals_inv _ _ _ _ _ _ Hl)
    as (_ & _ & _ & _ & _ & _ & Helbo & _).
  exists (t_mean (s_kl l)), (t_mean (s_log_pxz l)).
  split; [reflexivity|]. split; [reflexivity|].
  change (Some (s_elbo l) = Some (t_mean (s_kl l) - t_mean (s_log_pxz l))).
  rewrite Helbo, t_mean_minus by exact Hlen. reflexivity.
Qed.

(** For a positive image height and channel count, bits-per-dimension has
    the sign of the objective. *)
Theorem bpd_has_sign_of_elbo
  (m : VAE) (batch : Batch) (noise : Noise) (l : StepLocals) :
  step_locals batch_norm gini_score m batch noise = Ok l ->
  (0 < input_height m)%Z -> (0 < in_channels m)%Z ->
  (0 < s_bpd l <-> 0 < s_elbo l)
  /\ (s_bpd l < 0 <-> s_elbo l < 0)
  /\ (s_bpd l = 0 <-> s_elbo l = 0).
Proof.
  intros Hl Hh Hc.
  pose proof (step_locals_inv _ _ _ _ _ _ Hl)
    as (_ & _ & _ & _ & _ & _ & _ & Hbpd & _).
  assert (Hd : 0 < IZR (input_height m * input_height m * in_channels m)
                   * ln 2.0).
  { replace 2.0 with 2 by lra. apply Rmult_lt_0_compat; [|apply ln_2_pos].
    apply IZR_lt. nia. }
  set (D := IZR (input_height m * input_height m * in_channels m) * ln 2.0)
    in *.
  assert (Hinv : 0 < / D) by (apply Rinv_0_lt_compat; exact Hd).
  rewrite Hbpd. unfold Rdiv.
  assert (Hback : s_elbo l = s_elbo l * / D * D) by (field; lra).
  repeat split; intros H; try nra.
  all: rewrite Hback; nra.
Qed.

(** The [- log n] of the marginal log-likelihood turns the sum over the
    batch into a mean: when all n batch elements have the same log-weight
    [log_pxz + log_pz - log_qz], the estimate is that log-weight. *)
Theorem marginal_log_px_of_equal_weights
  (m : VAE) (batch : Batch) (noise : Noise) (l : StepLocals) (w : R) :
  step_locals batch_norm gini_score m batch noise = Ok l ->
  (1 <= length (s_x1 l))%nat ->
  t1_map2 Rminus (t1_map2 Rplus (s_log_pxz l) (sum_last (s_log_pz l)))
                 (sum_last (s_log_qz l))
  = repeat w (length (s_x1 l)) ->
  s_marg_log_px l = w.
Proof.
  intros Hl Hn Hw.
  pose proof (step_locals_inv _ _ _ _ _ _ Hl)
    as (_ & _ & _ & _ & _ & _ & _ & _ & _ & HN & Hmarg).
  rewrite Hmarg, Hw, HN. unfold logsumexp.
  rewrite t_sum_exp_repeat.
  assert (0 < INR (length (s_x1 l))) by (apply lt_0_INR; lia).
  rewrite ln_mult by (try apply exp_pos; assumption).
  rewrite ln_exp. lra.
Qed.

End MoreStepFacts.

(* ================================================================== *)
(** * The further properties on the small configuration *)

Lemma small_shape (v : R) : has_shape4 1 3 1 1 [Small.image v].
Proof. unfold has_shape4; simpl; repeat constructor. Qed.

Lemma gaussian_likelihood_upper_bound_witness :
  has_shape4 1 3 1 1 [Small.image 0]
  /\ has_shape4 1 3 1 1 [Small.image 0.4]
  /\ Forall (fun v => v <= INR (3 * 1 * 1) * (- 0 - ln (sqrt (2 * PI))))
            (gaussian_likelihood [Small.image 0] 0 [Small.image 0.4]).
Proof.
  split; [exact (small_shape 0)|]. split; [exact (small_shape 0.4)|].
  exact (gaussian_likelihood_upper_bound
           [Small.image 0] 0 [Small.image 0.4] 1 3 1 1
           (small_shape 0) (small_shape 0.4)).
Defined.

Lemma sample_zero_noise_is_mean_witness :
  sample Small.vae [[1; -2]] [[0; 3]] (fun _ _ => 0)
  = Ok (mkDistribution Normal [[0; 0]] [[1; 1]],
        mkDistribution Normal [[1; -2]] [[exp (0 / 2); exp (3 / 2)]],
        [[1 + 0 * exp (0 / 2); -2 + 0 * exp (3 / 2)]])
  /\ same_shape2 [[1; -2]] [[0; 3]]
  /\ [[1 + 0 * exp (0 / 2); -2 + 0 * exp (3 / 2)]] = [[1; -2]].
Proof.
  assert (H : sample Small.vae [[1; -2]] [[0; 3]] (fun _ _ => 0)
              = Ok (mkDistribution Normal [[0; 0]] [[1; 1]],
                    mkDistribution Normal [[1; -2]]
                                   [[exp (0 / 2); exp (3 / 2)]],
                    [[1 + 0 * exp (0 / 2); -2 + 0 * exp (3 / 2)]]))
    by reflexivity.
  split; [exact H|]. split; [reflexivity|].
  exact (sample_zero_noise_is_mean Small.vae _ _ _ _ _ H eq_refl).
Defined.

Lemma kl_divergence_mc_length_witness :
  (1 <= 2)%nat
  /\ length (kl_divergence_mc (mkDistribution Normal [[0; 0]] [[1; 1]])
                              (mkDistribution Laplace [[1; 2]] [[2; 3]])
                              2 (fun s n j => INR s))
     = 1%nat.
Proof.
  assert (Hn : (1 <= 2)%nat) by lia.
  split; [exact Hn|].
  exact (kl_divergence_mc_length
           (mkDistribution Normal [[0; 0]] [[1; 1]])
           (mkDistribution Laplace [[1; 2]] [[2; 3]])
           2 (fun s n j => INR s) 1 eq_refl eq_refl eq_refl eq_refl Hn).
Defined.

Lemma sample_invariants_witness :
  sample Small.vae [[1]] [[0]] (fun _ _ => 1)
  = Ok (mkDistribution Normal [[0]] [[1]],
        mkDistribution Normal [[1]] [[exp (0 / 2)]],
        [[1 + 1 * exp (0 / 2)]])
  /\ all_entries (fun s => 0 < s) [[exp (0 / 2)]]
  /\ t2_map (fun s => ln (s ^ 2)) [[exp (0 / 2)]] = [[0]].
Proof.
  assert (H : sample Small.vae [[1]] [[0]] (fun _ _ => 1)
              = Ok (mkDistribution Normal [[0]] [[1]],
                    mkDistribution Normal [[1]] [[exp (0 / 2)]],
                    [[1 + 1 * exp (0 / 2)]])) by reflexivity.
  split; [exact H|].
  destruct (sample_invariants _ _ _ _ _ _ _ H)
    as (_ & _ & _ & _ & _ & Hpos & Hvar & _).
  split; [exact Hpos | exact Hvar].
Defined.

Lemma kl_zero_at_prior_witness :
  sample Small.vae [[0]] [[0]] (fun _ _ => 1)
  = Ok (mkDistribution Normal [[0]] [[1]],
        mkDistribution Normal [[0]] [[exp (0 / 2)]],
        [[0 + 1 * exp (0 / 2)]])
  /\ prior Small.vae = posterior Small.vae
  /\ same_shape2 [[0]] [[0]]
  /\ all_entries (fun v => v = 0) [[0]]
  /\ (1 <= 1)%nat
  /\ kl_divergence_mc (mkDistribution Normal [[0]] [[1]])
                      (mkDistribution Normal [[0]] [[exp (0 / 2)]])
                      1 (fun _ _ _ => 3)
     = [0].
Proof.
  assert (H : sample Small.vae [[0]] [[0]] (fun _ _ => 1)
              = Ok (mkDistribution Normal [[0]] [[1]],
                    mkDistribution Normal [[0]] [[exp (0 / 2)]],
                    [[0 + 1 * exp (0 / 2)]])) by reflexivity.
  assert (Hz : all_entries (fun v => v = 0) [[0]])
    by (repeat constructor).
  assert (Hn : (1 <= 1)%nat) by lia.
  split; [exact H|]. split; [reflexivity|]. split; [reflexivity|].
  split; [exact Hz|]. split; [exact Hn|].
  exact (kl_zero_at_prior Small.vae [[0]] [[0]] (fun _ _ => 1) _ _ _
                          1 (fun _ _ _ => 3) H eq_refl eq_refl Hz Hz Hn).
Defined.

Lemma nonlinear_head_dead_relu_witness :
  (0 < 2)%Z
  /\ all_entries (fun v => v = 0)
       (Projection_forward SmallMore.negative_norm
          (Projection_init 1 2 1 (Small.const_init 1 1)
                           (Small.const_init 1 1)) [[1]]).
Proof.
  assert (Hh : (0 < 2)%Z) by lia.
  split; [exact Hh|].
  apply (nonlinear_head_dead_relu SmallMore.negative_norm 1 2 1
           (Small.const_init 1 1) (Small.const_init 1 1) [[1]] Hh).
  apply all_entries_t2_map; intros v; lra.
Defined.

Lemma small_unknown_keys :
  ~ In "vgg16"
       (dict_keys (encoders Small.resnet_encoder Small.resnet_encoder))
  /\ ~ In "unet"
         (dict_keys (decoders Small.resnet_decoder Small.resnet_decoder)).
Proof.
  split; intros [H|[H|[]]]; discriminate.
Qed.

Lemma VAE_init_unknown_backbone_witness :
  VAE_init Small.resnet_encoder Small.resnet_encoder
           Small.resnet_decoder Small.resnet_decoder
           SmallMore.hp_vgg Small.init
  = Raise (KeyError "vgg16")
  /\ VAE_init Small.resnet_encoder Small.resnet_encoder
              Small.resnet_decoder Small.resnet_decoder
              SmallMore.hp_unet Small.init
     = Raise (KeyError "unet").
Proof.
  destruct small_unknown_keys as [He Hd].
  split.
  - exact (proj1 (VAE_init_unknown_backbone
                    Small.resnet_encoder Small.resnet_encoder
                    Small.resnet_decoder Small.resnet_decoder
                    SmallMore.hp_vgg Small.init) He).
  - refine (proj2 (VAE_init_unknown_backbone
                     Small.resnet_encoder Small.resnet_encoder
                     Small.resnet_decoder Small.resnet_decoder
                     SmallMore.hp_unet Small.init) _ Hd).
    right; left; reflexivity.
Defined.

Lemma latent_sample_width_witness :
  VAE_init Small.resnet_encoder Small.resnet_encoder
           Small.resnet_decoder Small.resnet_decoder Small.hp Small.init
  = Ok Small.vae
  /\ exists z x_hat p q,
       forward Small.batch_norm Small.vae [Small.image 0.4] (fun _ _ => 1)
       = Ok (z, x_hat, p, q)
       /\ has_width 1 z.
Proof.
  split; [exact small_init|].
  eexists _, _, _, _.
  refine (let Hf := eq_refl in
          conj Hf (proj1 (latent_sample_width
                            Small.resnet_encoder Small.resnet_encoder
                            Small.resnet_decoder Small.resnet_decoder
                            Small.batch_norm Small.hp Small.init Small.vae
                            [Small.image 0.4] (fun _ _ => 1) _ _ _ _
                            small_init Hf))).
Defined.

Lemma configure_optimizers_of_init_witness :
  VAE_init Small.resnet_encoder Small.resnet_encoder
           Small.resnet_decoder Small.resnet_decoder Small.hp Small.init
  = Ok Small.vae
  /\ configure_optimizers Small.vae = OptimizerOnly (mkAdamax 1e-4).
Proof.
  split; [exact small_init|].
  exact (configure_optimizers_of_init
           Small.resnet_encoder Small.resnet_encoder
           Small.resnet_decoder Small.resnet_decoder
           Small.hp Small.init Small.vae small_init).
Defined.

Lemma step_wrong_layout_witness :
  layout_matches SmallMore.vae_unlabeled Small.batch = false
  /\ exists msg,
       step Small.batch_norm Small.gini_score SmallMore.vae_unlabeled
            Small.batch 0 Small.noise
       = Raise (ValueError msg).
Proof.
  split; [reflexivity|].
  destruct (step_wrong_layout Small.batch_norm Small.gini_score
              SmallMore.vae_unlabeled Small.batch 0 Small.noise [] eq_refl)
    as (msg & Hstep & _).
  exists msg; exact Hstep.
Defined.

Lemma training_step_logs_witness :
  exists loss lg',
    training_step Small.batch_norm Small.gini_score
                  Small.vae Small.batch 0 Small.noise []
    = Ok (loss, lg')
    /\ exists call,
         lg' = [call]
         /\ dict_lookup (entries call) "train_elbo" = Some loss.
Proof.
  eexists _, _.
  refine (let H := eq_refl in conj H _).
  destruct (training_step_logs Small.batch_norm Small.gini_score
              Small.vae Small.batch 0 Small.noise [] _ _ H)
    as (call & Hlg & _ & Helbo & _).
  exists call. split; [exact Hlg | exact Helbo].
Defined.

Lemma validation_step_logs_witness :
  exists loss lg',
    validation_step Small.batch_norm Small.gini_score
                    Small.vae Small.batch 0 Small.noise []
    = Ok (loss, lg')
    /\ exists call,
         lg' = [call]
         /\ dict_lookup (entries call) "val_elbo" = Some loss.
Proof.
  eexists _, _.
  refine (let H := eq_refl in conj H _).
  destruct (validation_step_logs Small.batch_norm Small.gini_score
              Small.vae Small.batch 0 Small.noise [] _ _ H)
    as (call & Hlg & _ & Helbo & _).
  exists call. split; [exact Hlg | exact Helbo].
Defined.

Lemma step_returns_only_if_runnable_witness :
  exists elbo logs,
    step Small.batch_norm Small.gini_score
         Small.vae SmallMore.batch2 0 SmallMore.noise2 = Ok (elbo, logs)
    /\ layout_matches Small.vae SmallMore.batch2 = true
    /\ supported (prior Small.vae) /\ supported (posterior Small.vae).
Proof.
  eexists _, _.
  refine (let H := eq_refl in
          conj H (step_returns_only_if_runnable
                    Small.batch_norm Small.gini_score
                    Small.vae SmallMore.batch2 0 SmallMore.noise2 _ _ H)).
Defined.

Lemma logged_elbo_is_kl_minus_log_pxz_witness :
  exists l,
    step_locals Small.batch_norm Small.gini_score
                Small.vae SmallMore.batch2 SmallMore.noise2 = Ok l
    /\ length (s_kl l) = 2%nat
    /\ length (s_kl l) = length (s_log_pxz l)
    /\ exists kl log_pxz,
         dict_lookup (step_logs l) "kl" = Some kl
         /\ dict_lookup (step_logs l) "log_pxz" = Some log_pxz
         /\ dict_lookup (step_logs l) "elbo" = Some (kl - log_pxz).
Proof.
  eexists.
  refine (let Hl := eq_refl in let Hlen := eq_refl in
          conj Hl (conj eq_refl (conj Hlen
            (logged_elbo_is_kl_minus_log_pxz
               Small.batch_norm Small.gini_score
               Small.vae SmallMore.batch2 SmallMore.noise2 _ Hl Hlen)))).
Defined.

Lemma bpd_has_sign_of_elbo_witness :
  (0 < input_height Small.vae)%Z /\ (0 < in_channels Small.vae)%Z
  /\ exists l,
       step_locals Small.batch_norm Small.gini_score
                   Small.vae Small.batch Small.noise = Ok l
       /\ (0 < s_bpd l <-> 0 < s_elbo l).
Proof.
  assert (Hh : (0 < input_height Small.vae)%Z) by reflexivity.
  assert (Hc : (0 < in_channels Small.vae)%Z) by reflexivity.
  split; [exact Hh|]. split; [exact Hc|].
  eexists.
  refine (let Hl := eq_refl in
          conj Hl (proj1 (bpd_has_sign_of_elbo
                            Small.batch_norm Small.gini_score
                            Small.vae Small.batch Small.noise _
                            Hl Hh Hc))).
Defined.

Lemma marginal_log_px_of_equal_weights_witness :
  exists l w,
    step_locals Small.batch_norm Small.gini_score
                Small.vae SmallMore.batch_equal Small.noise = Ok l
    /\ length (s_x1 l) = 2%nat
    /\ (1 <= length (s_x1 l))%nat
    /\ t1_map2 Rminus
         (t1_map2 Rplus (s_log_pxz l) (sum_last (s_log_pz l)))
         (sum_last (s_log_qz l))
       = repeat w (length (s_x1 l))
    /\ s_marg_log_px l = w.
Proof.
  eexists _, _.
  refine (let Hl := eq_refl in
          let Hn := le_S 1 1 (le_n 1) in
          let Hw := eq_refl in
          conj Hl (conj eq_refl (conj Hn (conj Hw
            (marginal_log_px_of_equal_weights
               Small.batch_norm Small.gini_score
               Small.vae SmallMore.batch_equal Small.noise _ _
               Hl Hn Hw))))).
Defined.
